(** * Resume analyzer: response normalisation and validation

    A shallow embedding of [app/services/analyzer.py] and
    [app/services/jd_matcher.py], together with the parts of the Python
    runtime they rely on ([str] methods, [json.loads], [re]), and the
    properties of the normalise/validate pipeline proved about them.

    Conventions.
    - A Python [str] is a list of Unicode code points ([pystr]).
    - A Python [dict] with string keys is a [gmap pystr value]; equality of
      maps is equality of dicts.
    - A Python call that may raise returns [res A]: [Ok a] or [Raise e].
    - The generative-model client is the record [world]; every call made
      to it is logged in a trace of [event]s.
    - Case folding, [\w] and [\d] are given on the ASCII range; code points
      outside it are left unchanged by [lower] and match neither class.
      Interpreter resource limits (recursion depth, the digit limit of
      [int], memory) are outside the model. *)

From Stdlib Require Import ZArith NArith List String Ascii Lia.
From Stdlib Require Import Floats.SpecFloat.
From stdpp Require Import gmap list.

Set Warnings "-register-all,-clear-no-such-hyp".

Open Scope string_scope.
Open Scope list_scope.

(** ** Python strings *)

Definition char := N.
Definition pystr := list N.

(** [u "abc"] is the Python literal ['abc']. *)
Definition u (s : string) : pystr :=
  map N_of_ascii (list_ascii_of_string s).

(** [uq] reads a literal in which [~] stands for the double quote. *)
Definition DQUOTE : char := 34%N.
Definition uq (s : string) : pystr :=
  map (fun c => if (c =? 126)%N then DQUOTE else c) (u s).

Definition NL : char := 10%N.
Definition BULLET : char := 8226%N.  (* U+2022 *)

Definition ch (s : string) : char :=
  match u s with c :: _ => c | [] => 0%N end.

Definition str_eqb (a b : pystr) : bool := bool_decide (a = b).

(** [str.isspace] on one code point; also [\s] of [re] on [str] patterns. *)
Definition is_space (c : char) : bool :=
  ((9 <=? c) && (c <=? 13) || (28 <=? c) && (c <=? 32)
   || (c =? 133) || (c =? 160) || (c =? 5760)
   || (8192 <=? c) && (c <=? 8202) || (c =? 8232) || (c =? 8233)
   || (c =? 8239) || (c =? 8287) || (c =? 12288))%N.

Definition is_digit (c : char) : bool := ((48 <=? c) && (c <=? 57))%N.
Definition is_upper (c : char) : bool := ((65 <=? c) && (c <=? 90))%N.
Definition is_lower (c : char) : bool := ((97 <=? c) && (c <=? 122))%N.
Definition is_word (c : char) : bool :=
  is_digit c || is_upper c || is_lower c || (c =? 95)%N.

Definition lower_char (c : char) : char :=
  if is_upper c then (c + 32)%N else c.
Definition lower (s : pystr) : pystr := map lower_char s.

Fixpoint drop_while (p : char -> bool) (s : pystr) : pystr :=
  match s with
  | c :: s' => if p c then drop_while p s' else s
  | [] => []
  end.

Definition lstrip_by (p : char -> bool) (s : pystr) : pystr := drop_while p s.
Definition rstrip_by (p : char -> bool) (s : pystr) : pystr :=
  rev (drop_while p (rev s)).

(** [s.strip()] *)
Definition strip (s : pystr) : pystr := rstrip_by is_space (lstrip_by is_space s).

(** [s.lstrip(chars)] *)
Definition lstrip_chars (chars : pystr) (s : pystr) : pystr :=
  lstrip_by (fun c => bool_decide (c ∈ chars)) s.

Fixpoint startswith (p s : pystr) : bool :=
  match p, s with
  | [], _ => true
  | a :: p', b :: s' => (a =? b)%N && startswith p' s'
  | _ :: _, [] => false
  end.

Definition endswith (p s : pystr) : bool := startswith (rev p) (rev s).

(** [sub in s] *)
Fixpoint contains (sub s : pystr) : bool :=
  startswith sub s ||
  match s with
  | [] => false
  | _ :: s' => contains sub s'
  end.

(** [s.find(c)] for a one-character [c]; [None] is Python's [-1]. *)
Fixpoint find_char (c : char) (s : pystr) : option nat :=
  match s with
  | [] => None
  | a :: s' => if (a =? c)%N then Some 0 else S <$> find_char c s'
  end.

(** [s.rfind(c)] *)
Fixpoint rfind_char (c : char) (s : pystr) : option nat :=
  match s with
  | [] => None
  | a :: s' =>
      match rfind_char c s' with
      | Some i => Some (S i)
      | None => if (a =? c)%N then Some 0 else None
      end
  end.

(** [s[i:j]] for non-negative [i] and [j] *)
Definition slice (i j : nat) (s : pystr) : pystr := take (j - i) (drop i s).

(** [s.split(sep)] for a non-empty separator.  [skip] counts the characters
    of a separator just recognised that are still to be passed over. *)
Fixpoint split_go (sep s : pystr) (skip : nat) (cur : pystr) : list pystr :=
  match s with
  | [] => [rev cur]
  | c :: s' =>
      match skip with
      | S k => split_go sep s' k cur
      | O =>
          if startswith sep s
          then rev cur :: split_go sep s' (length sep - 1) []
          else split_go sep s' 0 (c :: cur)
      end
  end.

Definition split (sep s : pystr) : list pystr := split_go sep s 0 [].

(** [sep.join(parts)] *)
Fixpoint join (sep : pystr) (parts : list pystr) : pystr :=
  match parts with
  | [] => []
  | [p] => p
  | p :: ps => p ++ sep ++ join sep ps
  end.

(** ** Python values, exceptions *)

Inductive value :=
| VNone
| VBool (b : bool)
| VInt (z : Z)
| VFloat (f : spec_float)
| VStr (s : pystr)
| VList (l : list value)
| VDict (d : gmap pystr value).

Inductive exn :=
| JSONDecodeError (msg : pystr)
| NameError (msg : pystr)
| TypeError (msg : pystr)
| ValueError (msg : pystr)
| OverflowError (msg : pystr)
| AttributeError (msg : pystr)
| RecursionError (msg : pystr)
| ProviderError (msg : pystr).   (* whatever the model client raises *)

(** [str(e)] *)
Definition exn_str (e : exn) : pystr :=
  match e with
  | JSONDecodeError m | NameError m | TypeError m | ValueError m
  | OverflowError m | AttributeError m | RecursionError m
  | ProviderError m => m
  end.

Inductive res (A : Type) :=
| Ok (a : A)
| Raise (e : exn).
Arguments Ok {A} a.
Arguments Raise {A} e.

#[global] Instance res_ret : MRet res := fun A a => Ok a.
#[global] Instance res_bind : MBind res := fun A B f m =>
  match m with
  | Ok a => f a
  | Raise e => Raise e
  end.

#[global] Instance res_fmap : FMap res := fun A B f m =>
  match m with
  | Ok a => Ok (f a)
  | Raise e => Raise e
  end.

Definition is_ok {A} (r : res A) : bool :=
  match r with Ok _ => true | Raise _ => false end.

(** Truth value of an object, as tested by [if x] / [not x] / [any]. *)
Definition truthy (v : value) : bool :=
  match v with
  | VNone => false
  | VBool b => b
  | VInt z => negb (z =? 0)%Z
  | VFloat f =>
      match f with S754_zero _ => false | _ => true end
  | VStr s => match s with [] => false | _ => true end
  | VList l => match l with [] => false | _ => true end
  | VDict d => negb (bool_decide (d = ∅))
  end.

(** [isinstance(v, (int, float))]; [bool] is a subclass of [int]. *)
Definition is_number (v : value) : bool :=
  match v with
  | VBool _ | VInt _ | VFloat _ => true
  | _ => false
  end.

(** [int(f)] for a float: truncation towards zero. *)
Definition int_of_float (f : spec_float) : res Z :=
  match f with
  | S754_zero _ => Ok 0%Z
  | S754_finite s m e =>
      let a := match e with
               | Zneg k => Z.shiftr (Zpos m) (Zpos k)
               | _ => Z.shiftl (Zpos m) e
               end in
      Ok (if s then Z.opp a else a)
  | S754_infinity _ =>
      Raise (OverflowError (u "cannot convert float infinity to integer"))
  | S754_nan =>
      Raise (ValueError (u "cannot convert float NaN to integer"))
  end.

(** [int(v)] for a value that passed [is_number]. *)
Definition py_int (v : value) : res Z :=
  match v with
  | VInt z => Ok z
  | VBool b => Ok (if b then 1 else 0)%Z
  | VFloat f => int_of_float f
  | _ => Raise (TypeError (u "int() argument must be a string, a bytes-like object or a real number"))
  end.

(** ** [json.loads]

    The decoder of the Python standard library with its default settings:
    [NaN], [Infinity] and [-Infinity] are accepted, strings are scanned in
    strict mode, a repeated key keeps its last value. *)

Module Json.

Definition decode_error (m : string) {A} : res A := Raise (JSONDecodeError (u m)).

Definition is_ws (c : char) : bool :=
  ((c =? 32) || (c =? 9) || (c =? 10) || (c =? 13))%N.

Definition skip_ws (s : pystr) : pystr := drop_while is_ws s.

Definition hexval (c : char) : option N :=
  if is_digit c then Some (c - 48)%N
  else if ((97 <=? c) && (c <=? 102))%N then Some (c - 87)%N
  else if ((65 <=? c) && (c <=? 70))%N then Some (c - 55)%N
  else None.

Definition hex4 (a b c d : char) : option N :=
  x1 ← hexval a; x2 ← hexval b; x3 ← hexval c; x4 ← hexval d;
  Some (((x1 * 16 + x2) * 16 + x3) * 16 + x4)%N.

Definition high_surrogate (n : N) : bool := ((55296 <=? n) && (n <=? 56319))%N.
Definition low_surrogate (n : N) : bool := ((56320 <=? n) && (n <=? 57343))%N.
Definition join_surrogates (hi lo : N) : N :=
  (65536 + ((hi - 55296) * 1024 + (lo - 56320)))%N.

Definition simple_escape (c : char) : option char :=
  if (c =? 34)%N then Some 34%N          (* quote *)
  else if (c =? 92)%N then Some 92%N     (* backslash *)
  else if (c =? 47)%N then Some 47%N     (* slash *)
  else if (c =? 98)%N then Some 8%N      (* backspace *)
  else if (c =? 102)%N then Some 12%N    (* form feed *)
  else if (c =? 110)%N then Some 10%N    (* newline *)
  else if (c =? 114)%N then Some 13%N    (* carriage return *)
  else if (c =? 116)%N then Some 9%N     (* tab *)
  else None.

(** The body of a string, from just after its opening quote; [acc] holds
    the characters decoded so far, last first. *)
Fixpoint scanstring (s : pystr) (acc : pystr) : res (pystr * pystr) :=
  match s with
  | [] => decode_error "Unterminated string starting at"
  | c :: s1 =>
      if (c =? 34)%N then Ok (rev acc, s1)
      else if (c =? 92)%N then
        match s1 with
        | [] => decode_error "Unterminated string starting at"
        | e :: s2 =>
            if (e =? 117)%N then
              match s2 with
              | h1 :: h2 :: h3 :: h4 :: s3 =>
                  match hex4 h1 h2 h3 h4 with
                  | None => decode_error "Invalid \uXXXX escape"
                  | Some uni =>
                      if high_surrogate uni then
                        match s3 with
                        | b :: uu :: s4 =>
                            if ((b =? 92) && (uu =? 117))%N then
                              match s4 with
                              | l1 :: l2 :: l3 :: l4 :: s5 =>
                                  match hex4 l1 l2 l3 l4 with
                                  | None => decode_error "Invalid \uXXXX escape"
                                  | Some uni2 =>
                                      if low_surrogate uni2
                                      then scanstring s5 (join_surrogates uni uni2 :: acc)
                                      else scanstring s3 (uni :: acc)
                                  end
                              | _ => decode_error "Invalid \uXXXX escape"
                              end
                            else scanstring s3 (uni :: acc)
                        | _ => scanstring s3 (uni :: acc)
                        end
                      else scanstring s3 (uni :: acc)
                  end
              | _ => decode_error "Invalid \uXXXX escape"
              end
            else
              match simple_escape e with
              | Some d => scanstring s2 (d :: acc)
              | None => decode_error "Invalid \escape"
              end
        end
      else if (c <? 32)%N then decode_error "Invalid control character at"
      else scanstring s1 (c :: acc)
  end.

Fixpoint take_while (p : char -> bool) (s : pystr) : pystr :=
  match s with
  | c :: s' => if p c then c :: take_while p s' else []
  | [] => []
  end.

Definition digits_value (ds : pystr) : Z :=
  fold_left (fun acc c => (10 * acc + Z.of_N (c - 48))%Z) ds 0%Z.

(** [float(text)] for the decimal [m * 10^e10], correctly rounded to
    binary64 (round to nearest, ties to even; overflow gives infinity). *)
Definition float_of_decimal (neg : bool) (m : Z) (e10 : Z) : spec_float :=
  match m with
  | Zpos p =>
      match e10 with
      | Zneg k =>
          let '(q, e, l) :=
            SFdiv_core_binary 53 1024 (Zpos p) 0 (10 ^ Zpos k) 0 in
          binary_round_aux 53 1024 neg q e l
      | _ =>
          match (Zpos p * 10 ^ e10)%Z with
          | Zpos n => binary_round 53 1024 neg n 0
          | _ => S754_zero neg
          end
      end
  | _ => S754_zero neg
  end.

Definition starts_with_digit (s : pystr) : bool :=
  match s with c :: _ => is_digit c | [] => false end.

(** [NUMBER_RE.match]: an optional minus sign, then [0] or a digit
    string without leading zero; then optionally a dot with at least one
    digit; then optionally [e] or [E], an optional sign and at least one
    digit.  A fraction or an exponent makes the number a float. *)
Definition match_number (s : pystr) : option (value * pystr) :=
  let '(neg, s1) :=
    match s with
    | c :: t => if (c =? 45)%N then (true, t) else (false, s)
    | [] => (false, s)
    end in
  match s1 with
  | d :: t =>
      if is_digit d then
        let '(ip, r1) :=
          if (d =? 48)%N then ([d], t)
          else (take_while is_digit s1, drop_while is_digit s1) in
        let '(fp, r2) :=
          match r1 with
          | dot :: r =>
              if (dot =? 46)%N && starts_with_digit r
              then (take_while is_digit r, drop_while is_digit r)
              else ([], r1)
          | [] => ([], r1)
          end in
        let '(ex, r3) :=
          match r2 with
          | e :: r =>
              if ((e =? 101) || (e =? 69))%N then
                let '(eneg, r') :=
                  match r with
                  | c :: t' =>
                      if (c =? 43)%N then (false, t')
                      else if (c =? 45)%N then (true, t')
                      else (false, r)
                  | [] => (false, r)
                  end in
                if starts_with_digit r'
                then
                  let v := digits_value (take_while is_digit r') in
                  (Some (if eneg then (- v)%Z else v), drop_while is_digit r')
                else (None, r2)
              else (None, r2)
          | [] => (None, r2)
          end in
        match fp, ex with
        | [], None =>
            let v := digits_value ip in
            Some (VInt (if neg then (- v)%Z else v), r3)
        | _, _ =>
            let e10 := (default 0%Z ex - Z.of_nat (length fp))%Z in
            Some (VFloat (float_of_decimal neg (digits_value (ip ++ fp)) e10), r3)
        end
      else None
  | [] => None
  end.

Definition expect (lit : pystr) (v : value) (s : pystr) : res (value * pystr) :=
  if startswith lit s then Ok (v, drop (length lit) s)
  else decode_error "Expecting value".

(** [scan_once] with the object and array loops.  [fuel] bounds the
    number of nested calls; [loads] supplies enough of it. *)
Fixpoint scan_once (fuel : nat) (s : pystr) : res (value * pystr) :=
  match fuel with
  | O => Raise (RecursionError (u "maximum recursion depth exceeded"))
  | S fuel' =>
      match s with
      | [] => decode_error "Expecting value"
      | c :: s1 =>
          if (c =? 34)%N then
            '(str, rest) ← scanstring s1 []; Ok (VStr str, rest)
          else if (c =? 123)%N then
            let s2 := skip_ws s1 in
            match s2 with
            | c2 :: s3 =>
                if (c2 =? 125)%N then Ok (VDict ∅, s3)
                else if (c2 =? 34)%N then parse_members fuel' s3 ∅
                else decode_error "Expecting property name enclosed in double quotes"
            | [] => decode_error "Expecting property name enclosed in double quotes"
            end
          else if (c =? 91)%N then
            let s2 := skip_ws s1 in
            match s2 with
            | c2 :: s3 =>
                if (c2 =? 93)%N then Ok (VList [], s3)
                else parse_elements fuel' s2 []
            | [] => decode_error "Expecting value"
            end
          else if (c =? 110)%N then expect (u "null") VNone s
          else if (c =? 116)%N then expect (u "true") (VBool true) s
          else if (c =? 102)%N then expect (u "false") (VBool false) s
          else if (c =? 78)%N then expect (u "NaN") (VFloat S754_nan) s
          else if (c =? 73)%N then expect (u "Infinity") (VFloat (S754_infinity false)) s
          else if (c =? 45)%N && startswith (u "-Infinity") s then
            Ok (VFloat (S754_infinity true), drop 9 s)
          else
            match match_number s with
            | Some r => Ok r
            | None => decode_error "Expecting value"
            end
      end
  end

(** One [key: value] member, from just after the key's opening quote. *)
with parse_members (fuel : nat) (s : pystr) (acc : gmap pystr value)
  : res (value * pystr) :=
  match fuel with
  | O => Raise (RecursionError (u "maximum recursion depth exceeded"))
  | S fuel' =>
      '(key, r1) ← scanstring s [];
      match skip_ws r1 with
      | colon :: r2 =>
          if (colon =? 58)%N then
            '(v, r3) ← scan_once fuel' (skip_ws r2);
            let acc' := <[key := v]> acc in
            match skip_ws r3 with
            | d :: r4 =>
                if (d =? 125)%N then Ok (VDict acc', r4)
                else if (d =? 44)%N then
                  match skip_ws r4 with
                  | q :: r5 =>
                      if (q =? 34)%N then parse_members fuel' r5 acc'
                      else decode_error "Expecting property name enclosed in double quotes"
                  | [] => decode_error "Expecting property name enclosed in double quotes"
                  end
                else decode_error "Expecting ',' delimiter"
            | [] => decode_error "Expecting ',' delimiter"
            end
          else decode_error "Expecting ':' delimiter"
      | [] => decode_error "Expecting ':' delimiter"
      end
  end

(** One array element, from its first character; [acc] holds the
    elements read so far, last first. *)
with parse_elements (fuel : nat) (s : pystr) (acc : list value)
  : res (value * pystr) :=
  match fuel with
  | O => Raise (RecursionError (u "maximum recursion depth exceeded"))
  | S fuel' =>
      '(v, r1) ← scan_once fuel' s;
      let acc' := v :: acc in
      match skip_ws r1 with
      | d :: r2 =>
          if (d =? 93)%N then Ok (VList (rev acc'), r2)
          else if (d =? 44)%N then parse_elements fuel' (skip_ws r2) acc'
          else decode_error "Expecting ',' delimiter"
      | [] => decode_error "Expecting ',' delimiter"
      end
  end.

(** [json.loads(s)] *)
Definition loads (s : pystr) : res value :=
  '(v, rest) ← scan_once (2 * length s + 2) (skip_ws s);
  match skip_ws rest with
  | [] => Ok v
  | _ :: _ => decode_error "Extra data"
  end.

End Json.

(** ** [re]: a backtracking matcher

    Patterns are terms of [regex]; [exec] explores alternatives in the
    order of Python's matcher (greedy repetition tries one more iteration
    first, lazy repetition tries to stop first), so the first success is
    the match [re] reports.  A repetition stops when an iteration consumes
    nothing. *)

Module Re.

Inductive regex :=
| Eps
| Chr (p : char -> bool)              (* one character: literal, class, [.] *)
| Seq (r1 r2 : regex)
| Alt (r1 r2 : regex)                 (* r1|r2 *)
| Star (greedy : bool) (r : regex)    (* r* and r*? *)
| Group (i : nat) (r : regex)         (* capturing group number i *)
| Look (r : regex)                    (* (?=r) *)
| EndOfString.                        (* $ *)

Definition orelse {A} (a : option A) (b : unit -> option A) : option A :=
  match a with Some x => Some x | None => b tt end.

Fixpoint exec {A} (r : regex) (s : pystr) (c : gmap nat pystr)
    (k : pystr -> gmap nat pystr -> option A) : option A :=
  match r with
  | Eps => k s c
  | Chr p =>
      match s with
      | a :: s' => if p a then k s' c else None
      | [] => None
      end
  | Seq r1 r2 => exec r1 s c (fun s1 c1 => exec r2 s1 c1 k)
  | Alt r1 r2 => orelse (exec r1 s c k) (fun _ => exec r2 s c k)
  | Star g r1 =>
      (fix loop (n : nat) (s : pystr) (c : gmap nat pystr) : option A :=
         match n with
         | O => k s c
         | S n' =>
             let more := fun _ : unit =>
               exec r1 s c (fun s1 c1 =>
                 if (length s1 <? length s)%nat then loop n' s1 c1 else None) in
             if g then orelse (more tt) (fun _ => k s c)
             else orelse (k s c) more
         end) (length s) s c
  | Group i r1 =>
      exec r1 s c (fun s1 c1 => k s1 (<[i := take (length s - length s1) s]> c1))
  | Look r1 =>
      match exec r1 s c (fun _ c1 => Some c1) with
      | Some c1 => k s c1
      | None => None
      end
  | EndOfString =>
      match s with
      | [] => k s c
      | [a] => if (a =? NL)%N then k s c else None
      | _ => None
      end
  end.

(** A match: the text from its start, the text after its end, the groups. *)
Record rmatch := { m_from : pystr; m_rest : pystr; m_groups : gmap nat pystr }.

(** [m.group(i)]; a group that did not take part yields [None]. *)
Definition group (i : nat) (m : rmatch) : option pystr := m_groups m !! i.

Definition match_here (r : regex) (s : pystr) : option rmatch :=
  exec r s ∅ (fun s' c => Some {| m_from := s; m_rest := s'; m_groups := c |}).

(** [re.search(r, s)]: the match at the leftmost position that has one. *)
Fixpoint search (r : regex) (s : pystr) : option rmatch :=
  orelse (match_here r s)
    (fun _ => match s with
              | [] => None
              | _ :: s' => search r s'
              end).

(** [re.findall(r, s)] for a pattern with one group: group 1 of the
    successive non-overlapping matches.  After an empty match the scan
    moves on by one character. *)
Fixpoint findall_go (fuel : nat) (r : regex) (s : pystr) : list pystr :=
  match fuel with
  | O => []
  | S fuel' =>
      match search r s with
      | None => []
      | Some m =>
          default [] (group 1 m) ::
          (if (length (m_rest m) <? length (m_from m))%nat
           then findall_go fuel' r (m_rest m)
           else match m_rest m with
                | [] => []
                | _ :: s' => findall_go fuel' r s'
                end)
      end
  end.

Definition findall (r : regex) (s : pystr) : list pystr :=
  findall_go (S (length s)) r s.

(** Pattern syntax *)
Definition seqs (rs : list regex) : regex := foldr Seq Eps rs.
Fixpoint alts (r : regex) (rs : list regex) : regex :=
  match rs with
  | [] => r
  | r' :: rs' => Alt r (alts r' rs')
  end.
Definition plus (g : bool) (r : regex) : regex := Seq r (Star g r).
Definition opt (r : regex) : regex := Alt r Eps.                 (* r? *)
Definition lit (s : pystr) : regex :=
  seqs (map (fun a => Chr (fun b => (b =? a)%N)) s).
(** a literal under [re.IGNORECASE] *)
Definition lit_i (s : pystr) : regex :=
  seqs (map (fun a => Chr (fun b => (lower_char b =? lower_char a)%N)) s).
Definition any : regex := Chr (fun _ => true).                   (* [.] under DOTALL, [\s\S] *)
Definition space : regex := Chr is_space.                        (* \s *)
Definition digit : regex := Chr is_digit.                        (* \d *)
Definition word : regex := Chr is_word.                          (* \w *)
Definition one_of (cs : pystr) : regex := Chr (fun b => bool_decide (b ∈ cs)).
Definition colon_or_space : regex :=                             (* [:\s] *)
  Chr (fun b => (b =? 58)%N || is_space b).

End Re.

(** ** The model provider *)

(** What the program reads from, and asks of, the outside. *)
Record world := {
  (** [settings.GEMINI_API_KEY], the value of [os.getenv] *)
  GEMINI_API_KEY : option pystr;
  (** [genai.GenerativeModel(name)] *)
  GenerativeModel : pystr -> res unit;
  (** [model.generate_content(prompt)] followed by reading the text of the
      response ([response.text], or [str(response)]) *)
  generate_content : pystr -> res pystr
}.

(** The calls made to the provider's client, in order. *)
Inductive event :=
| Configure (api_key : pystr)        (* genai.configure *)
| CreateModel (name : pystr)         (* genai.GenerativeModel *)
| GenerateContent (prompt : pystr).  (* model.generate_content *)

Definition is_generate (e : event) : bool :=
  match e with GenerateContent _ => true | _ => false end.

(** [generate_content] was called [n] times. *)
Definition call_count (t : list event) : nat := length (filter is_generate t).

Definition strs (l : list string) : value := VList (map (fun s => VStr (u s)) l).
Definition dict_of (l : list (string * value)) : gmap pystr value :=
  list_to_map (map (fun kv => (u kv.1, kv.2)) l).

(** [d[k]] read as a value; a missing key never occurs where this is used. *)
Definition item (d : gmap pystr value) (k : string) : value :=
  default VNone (d !! u k).

(** ** [app/services/analyzer.py] *)

Module Analyzer.

Definition analysis_prompt (resume_text : pystr) : pystr :=
  join [NL] [
    u "";
    u "    You are an expert resume analyzer and career advisor. ";
    u "    Analyze the following resume carefully and provide detailed feedback.";
    u "    ";
    u "    Resume Text:";
    u "    " ++ resume_text;
    u "    ";
    u "    Please provide the following details in your analysis:";
    u "    1. Strengths: Identify the key strengths of the candidate based on their resume.";
    u "    2. Areas of Improvement: Identify areas where the candidate could improve.";
    u "    3. Project Recommendations: Based on their skills, suggest 3-5 projects they could build to showcase their abilities.";
    u "    4. Career Roadmap: Suggest a 1-2 year roadmap for career growth.";
    u "    5. Recommended Courses: Suggest 3-5 specific courses or certifications that would benefit them.";
    u "    ";
    u "    Format your response in JSON like this:";
    u "    {";
    uq "      ~strengths~: [~strength1~, ~strength2~, ~strength3~],";
    uq "      ~areas_of_improvement~: [~area1~, ~area2~, ~area3~],";
    uq "      ~project_recommendations~: [~project1~, ~project2~, ~project3~],";
    uq "      ~career_roadmap~: ~Detailed career roadmap goes here...~,";
    uq "      ~recommended_courses~: [~course1~, ~course2~, ~course3~]";
    u "    }";
    u "    "
  ].

(** The results of the error branches of [analyze_resume]. *)
Definition key_missing_result : gmap pystr value := dict_of [
  ("error", VStr (u "Gemini API key is not configured"));
  ("strengths", strs ["API key missing"]);
  ("areas_of_improvement", strs ["Configure Gemini API key"]);
  ("project_recommendations", strs ["Set up proper API configuration"]);
  ("career_roadmap", VStr (u "Please configure the Gemini API key to get results"));
  ("recommended_courses", strs ["API configuration course"])
].

Definition model_error_result (e : exn) : gmap pystr value := dict_of [
  ("error", VStr (u "Failed to create Gemini model: " ++ exn_str e));
  ("strengths", VList []);
  ("areas_of_improvement", VList []);
  ("project_recommendations", VList []);
  ("career_roadmap", VStr (u "Error occurred during analysis setup"));
  ("recommended_courses", VList [])
].

Definition too_short_result : gmap pystr value := dict_of [
  ("error", VStr (u "Resume text is too short or couldn't be properly extracted"));
  ("strengths", strs ["Unable to analyze - resume text too short"]);
  ("areas_of_improvement", strs ["Provide a more complete resume"]);
  ("project_recommendations", VList []);
  ("career_roadmap", VStr (u "Please provide a more detailed resume for analysis"));
  ("recommended_courses", VList [])
].

Definition api_error_result (e : exn) : gmap pystr value := dict_of [
  ("error", VStr (exn_str e));
  ("strengths", strs ["Error occurred during analysis"]);
  ("areas_of_improvement", strs ["Try again later"]);
  ("project_recommendations", VList []);
  ("career_roadmap", VStr (u "Error occurred during analysis: " ++ exn_str e));
  ("recommended_courses", VList [])
].

(** The pattern of the fenced block: the fence opener with its language
    tag, [\s*], group 1 = [[\s\S]*?], [\s*], the closing fence. *)
Definition fence : Re.regex :=
  Re.seqs [Re.lit (u "```json"); Re.Star true Re.space;
           Re.Group 1 (Re.Star false Re.any);
           Re.Star true Re.space; Re.lit (u "```")].

(** The text handed to [json.loads]. *)
Definition json_candidate (response_text : pystr) : pystr :=
  let json_str :=
    match Re.search fence response_text with
    | Some m => default [] (Re.group 1 m)
    | None => response_text
    end in
  let json_str := strip json_str in
  if negb (startswith (u "{") json_str && endswith (u "}") json_str) then
    match find_char (ch "{") json_str, rfind_char (ch "}") json_str with
    | Some start_idx, Some end_idx => slice start_idx (end_idx + 1) json_str
    | _, _ => json_str
    end
  else json_str.

Definition required_fields : list pystr :=
  [u "strengths"; u "areas_of_improvement"; u "project_recommendations";
   u "career_roadmap"; u "recommended_courses"].

Definition field_default (field : pystr) : value :=
  if bool_decide (field ≠ u "career_roadmap") then VList []
  else VStr (u "No information provided").

(** [if field not in result: result[field] = ...], on whatever
    [json.loads] returned. *)
Definition ensure_field (result : value) (field : pystr) : res value :=
  match result with
  | VDict d =>
      match d !! field with
      | Some _ => Ok result
      | None => Ok (VDict (<[field := field_default field]> d))
      end
  | VList l =>
      if existsb (fun v => match v with VStr s => str_eqb s field | _ => false end) l
      then Ok result
      else Raise (TypeError (u "list indices must be integers or slices, not str"))
  | VStr s =>
      if contains field s then Ok result
      else Raise (TypeError (u "'str' object does not support item assignment"))
  | VNone => Raise (TypeError (u "argument of type 'NoneType' is not iterable"))
  | VBool _ => Raise (TypeError (u "argument of type 'bool' is not iterable"))
  | VInt _ => Raise (TypeError (u "argument of type 'int' is not iterable"))
  | VFloat _ => Raise (TypeError (u "argument of type 'float' is not iterable"))
  end.

Fixpoint ensure_fields (result : value) (fields : list pystr) : res value :=
  match fields with
  | [] => Ok result
  | field :: rest => r ← ensure_field result field; ensure_fields r rest
  end.

(** The inner [try] block of [analyze_resume]. *)
Definition strict_parse (response_text : pystr) : res value :=
  result ← Json.loads (json_candidate response_text);
  ensure_fields result required_fields.

(** *** [parse_gemini_response] *)

Definition sections : list (pystr * list pystr) := [
  (u "strengths", [u "strength"; u "strengths"; u "strong points"]);
  (u "areas_of_improvement",
     [u "improvement"; u "weaknesses"; u "areas of improvement"; u "improve"]);
  (u "project_recommendations", [u "project"; u "projects"; u "build"; u "create"]);
  (u "career_roadmap", [u "roadmap"; u "career path"; u "growth path"]);
  (u "recommended_courses", [u "courses"; u "certification"; u "learn"; u "study"])
].

Definition list_sections : list pystr :=
  [u "strengths"; u "areas_of_improvement"; u "project_recommendations";
   u "recommended_courses"].

Definition is_header (line : pystr) (keywords : list pystr) : bool :=
  existsb (fun keyword => contains keyword (lower line)) keywords
  && (contains (u ":") line || contains (u "#") line || contains (u ".") (take 2 line)).

(** The [for section, keywords in sections.items()] loop with its [break]. *)
Definition find_section (line : pystr) : option pystr :=
  fst <$> List.find (fun sk => is_header line sk.2) sections.

Definition is_bullet (line : pystr) : bool :=
  startswith (u "- ") line || startswith (u "* ") line
  || startswith [BULLET; 32%N] line.

(** [result[section].append(item)] *)
Definition append_item (section item : pystr) (result : gmap pystr value)
  : gmap pystr value :=
  alter (fun v => match v with VList l => VList (l ++ [VStr item]) | _ => v end)
        section result.

(** One iteration of [for line in lines].  The name [re] is bound only
    inside [analyze_resume] (by its local [import re]); it is neither a
    global of the module nor a local of [parse_gemini_response], so the
    test [re.match(...)] of the second branch raises [NameError] as soon as
    it is evaluated, and the branches after it are never reached. *)
Definition scan_line (st : gmap pystr value * option pystr) (raw : pystr)
  : res (gmap pystr value * option pystr) :=
  let '(result, current_section) := st in
  let line := strip raw in
  match line with
  | [] => Ok st
  | _ :: _ =>
      match find_section line with
      | Some section => Ok (result, Some section)
      | None =>
          match current_section with
          | None => Ok st
          | Some section =>
              if is_bullet line then
                let item := strip (lstrip_chars (u "- *" ++ [BULLET]) line) in
                if bool_decide (section ∈ list_sections)
                then Ok (append_item section item result, current_section)
                else Ok st
              else Raise (NameError (u "name 're' is not defined"))
          end
      end
  end.

Fixpoint scan_lines (st : gmap pystr value * option pystr) (lines : list pystr)
  : res (gmap pystr value * option pystr) :=
  match lines with
  | [] => Ok st
  | line :: rest => st' ← scan_line st line; scan_lines st' rest
  end.

Definition initial_result (response_text : pystr) : gmap pystr value := dict_of [
  ("strengths", VList []);
  ("areas_of_improvement", VList []);
  ("project_recommendations", VList []);
  ("career_roadmap", VStr []);
  ("recommended_courses", VList []);
  ("raw_analysis", VStr response_text)
].

(** The positional fallback: the first five paragraphs, in fixed order. *)
Definition positional (response_text : pystr) (result : gmap pystr value)
  : gmap pystr value :=
  if negb (existsb truthy
             [item result "strengths"; item result "areas_of_improvement";
              item result "project_recommendations"; item result "career_roadmap";
              item result "recommended_courses"])
  then
    match split [NL; NL] response_text with
    | p0 :: p1 :: p2 :: p3 :: p4 :: _ =>
        <[u "recommended_courses" := VList [VStr p4]]>
        (<[u "career_roadmap" := VStr p3]>
        (<[u "project_recommendations" := VList [VStr p2]]>
        (<[u "areas_of_improvement" := VList [VStr p1]]>
        (<[u "strengths" := VList [VStr p0]]> result))))
    | _ => result
    end
  else result.

(** [if not result[k]: result[k] = v] *)
Definition fill (k : string) (v : value) (result : gmap pystr value)
  : gmap pystr value :=
  if negb (truthy (item result k)) then <[u k := v]> result else result.

Definition placeholders (result : gmap pystr value) : gmap pystr value :=
  fill "recommended_courses" (strs ["Could not extract recommended courses from analysis"])
  (fill "career_roadmap" (VStr (u "Could not extract career roadmap from analysis"))
  (fill "project_recommendations" (strs ["Could not extract project recommendations from analysis"])
  (fill "areas_of_improvement" (strs ["Could not extract areas of improvement from analysis"])
  (fill "strengths" (strs ["Could not extract strengths from analysis"]) result)))).

Definition parse_gemini_response (response_text : pystr) : res (gmap pystr value) :=
  '(result, _) ← scan_lines (initial_result response_text, None)
                            (split [NL] response_text);
  Ok (placeholders (positional response_text result)).

(** *** [analyze_resume] *)

Definition setup_gemini (api_key : pystr) : list event := [Configure api_key].

Definition model_name : pystr := u "gemini-1.5-pro".

(** What follows [response_text = ...] inside the outer [try]. *)
Definition normalize (response_text : pystr) : res value :=
  match strict_parse response_text with
  | Ok result => Ok result
  | Raise json_error => VDict <$> parse_gemini_response response_text
  end.

Definition analyze_resume (w : world) (resume_text : pystr) : list event * value :=
  match GEMINI_API_KEY w with
  | None | Some [] => ([], VDict key_missing_result)
  | Some api_key =>
      let setup := setup_gemini api_key ++ [CreateModel model_name] in
      match GenerativeModel w model_name with
      | Raise e => (setup, VDict (model_error_result e))
      | Ok _ =>
          if (length resume_text <? 50)%nat then (setup, VDict too_short_result)
          else
            let prompt := analysis_prompt resume_text in
            (setup ++ [GenerateContent prompt],
             match response_text ← generate_content w prompt; normalize response_text with
             | Ok result => result
             | Raise e => VDict (api_error_result e)
             end)
      end
  end.

End Analyzer.

(** ** [app/services/jd_matcher.py] *)

Module JdMatcher.

Definition categories : list pystr :=
  [u "Technical Skills"; u "Experience"; u "Education"; u "Soft Skills";
   u "Industry Knowledge"].

Definition list_fields : list pystr :=
  [u "matching_skills"; u "missing_skills"; u "recommendations"].

Definition zero_scores : gmap pystr value := dict_of [
  ("Technical Skills", VInt 0);
  ("Experience", VInt 0);
  ("Education", VInt 0);
  ("Soft Skills", VInt 0);
  ("Industry Knowledge", VInt 0)
].

(** The [error_response] of [compare_resume_jd] with its [error] set. *)
Definition error_response (error : value) : gmap pystr value := dict_of [
  ("error", error);
  ("score", VInt 0);
  ("matching_skills", VList []);
  ("missing_skills", VList []);
  ("recommendations", VList []);
  ("category_scores", VDict zero_scores)
].

(** The default structure of [parse_text_response] and of
    [validate_result_structure]. *)
Definition default_structure : gmap pystr value := dict_of [
  ("score", VInt 0);
  ("matching_skills", VList []);
  ("missing_skills", VList []);
  ("recommendations", VList []);
  ("category_scores", VDict zero_scores)
].

Definition match_prompt (resume_text jd_text : pystr) : pystr :=
  join [NL] [
    u "";
    u "    ACT AS AN EXPERT ATS ANALYZER. Analyze how well this resume matches the job description.";
    u "    ";
    u "    RESUME:";
    u "    " ++ resume_text;
    u "    ";
    u "    JOB DESCRIPTION:";
    u "    " ++ jd_text;
    u "    ";
    u "    YOUR ANALYSIS MUST INCLUDE:";
    u "    1. Overall match score (0-100%)";
    u "    2. List of matching skills (exact matches only)";
    u "    3. List of missing skills (clearly missing from resume)";
    u "    4. Specific recommendations to improve the resume";
    u "    5. Category match scores (Technical Skills, Experience, Education, Soft Skills, Industry Knowledge)";
    u "    ";
    u "    RESPONSE FORMAT (STRICT JSON ONLY):";
    u "    {";
    uq "        ~score~: 75,";
    uq "        ~matching_skills~: [~Python~, ~Project Management~],";
    uq "        ~missing_skills~: [~AWS~, ~Docker~],";
    uq "        ~recommendations~: [";
    uq "            ~Add AWS certification~,";
    uq "            ~Highlight Docker experience~";
    u "        ],";
    uq "        ~category_scores~: {";
    uq "            ~Technical Skills~: 80,";
    uq "            ~Experience~: 70,";
    uq "            ~Education~: 90,";
    uq "            ~Soft Skills~: 65,";
    uq "            ~Industry Knowledge~: 75";
    u "        }";
    u "    }";
    u "    ";
    u "    IMPORTANT:";
    u "    - Only respond with valid JSON";
    u "    - Do not include any markdown formatting";
    u "    - Ensure all numbers are integers";
    u "    - All arrays should contain at least 3 items if possible";
    u "    "
  ].

(** *** The patterns *)

(** The fenced object, under [re.DOTALL]: the fence opener with its
    language tag, [\s*], group 1 = an opening brace, [.+?] and a closing
    brace, [\s*], the closing fence. *)
Definition fence : Re.regex :=
  Re.seqs [Re.lit (u "```json"); Re.Star true Re.space;
           Re.Group 1 (Re.seqs [Re.lit (u "{"); Re.plus false Re.any; Re.lit (u "}")]);
           Re.Star true Re.space; Re.lit (u "```")].

(** The key [score] in double quotes, a colon, [\s*], group 1 = [\d+] *)
Definition score_key : Re.regex :=
  Re.seqs [Re.lit (uq "~score~:"); Re.Star true Re.space;
           Re.Group 1 (Re.plus true Re.digit)].

(** [name], then any run of colons and white space, group 1 = [\d+];
    under [re.IGNORECASE].  Used with [name = score] and with each
    category. *)
Definition labelled_number (name : pystr) : Re.regex :=
  Re.seqs [Re.lit_i name; Re.Star true Re.colon_or_space;
           Re.Group 1 (Re.plus true Re.digit)].

Definition newline : Re.regex := Re.lit [NL].
Definition bullet_char : Re.regex := Re.one_of (u "-*" ++ [BULLET]).
Definition end_of_text : Re.regex := Re.Seq (Re.Star true newline) Re.EndOfString.

(** [section_name], a run of colons and white space, an optional newline,
    group 1 = lazy [.*?], up to a lookahead for a newline followed by
    [\w+] and a colon or white space, or for the end of the text; under
    [re.IGNORECASE | re.DOTALL]. *)
Definition section_pattern (section_name : pystr) : Re.regex :=
  Re.seqs [Re.lit_i section_name; Re.Star true Re.colon_or_space;
           Re.opt newline;
           Re.Group 1 (Re.Star false Re.any);
           Re.Look (Re.alts
             (Re.seqs [newline; Re.plus true Re.word; Re.colon_or_space])
             [end_of_text])].

(** A bullet character, [\s*], group 1 = lazy [.+?], up to a lookahead
    for the next bullet, numbered item or word at the start of a line, or
    for the end of the text; under [re.DOTALL]. *)
Definition bullet_pattern : Re.regex :=
  Re.seqs [bullet_char; Re.Star true Re.space;
           Re.Group 1 (Re.plus false Re.any);
           Re.Look (Re.alts
             (Re.Seq newline bullet_char)
             [Re.seqs [newline; Re.plus true Re.digit; Re.lit (u ".")];
              Re.Seq newline (Re.plus true Re.word);
              end_of_text])].

(** [\d+], a dot, [\s*], group 1 = lazy [.+?], up to the same kind of
    lookahead with the first two alternatives exchanged. *)
Definition numbered_pattern : Re.regex :=
  Re.seqs [Re.plus true Re.digit; Re.lit (u "."); Re.Star true Re.space;
           Re.Group 1 (Re.plus false Re.any);
           Re.Look (Re.alts
             (Re.seqs [newline; Re.plus true Re.digit; Re.lit (u ".")])
             [Re.Seq newline bullet_char;
              Re.Seq newline (Re.plus true Re.word);
              end_of_text])].

(** *** The text fallback *)

Definition extract_section (text section_name : pystr) : pystr :=
  match Re.search (section_pattern section_name) text with
  | Some m => strip (default [] (Re.group 1 m))
  | None => []
  end.

Definition extract_list_items (text : pystr) : list pystr :=
  let bullet_items := Re.findall bullet_pattern text in
  let numbered_items := Re.findall numbered_pattern text in
  let items := map strip bullet_items ++ map strip numbered_items in
  let items :=
    match items with
    | [] =>
        let lines :=
          map strip (List.filter (fun line => truthy (VStr (strip line)))
                                 (split [NL] text)) in
        take 5 lines
    | _ :: _ => items
    end in
  take 10 items.

(** [int(m.group(1))] for a group of decimal digits *)
Definition group_int (m : Re.rmatch) : value :=
  VInt (Json.digits_value (default [] (Re.group 1 m))).

Definition extract_field (text : pystr) (section_name : string)
    (result : gmap pystr value) (field : string) : gmap pystr value :=
  match extract_section text (u section_name) with
  | [] => result
  | section => <[u field := VList (VStr <$> extract_list_items section)]> result
  end.

Definition extract_category (text : pystr) (scores : gmap pystr value)
    (category : pystr) : gmap pystr value :=
  match Re.search (labelled_number category) text with
  | Some m => <[category := group_int m]> scores
  | None => scores
  end.

Definition parse_text_response (text : pystr) : gmap pystr value :=
  let result := default_structure in
  let score_match :=
    match Re.search score_key text with
    | Some m => Some m
    | None => Re.search (labelled_number (u "score")) text
    end in
  let result :=
    match score_match with
    | Some m => <[u "score" := group_int m]> result
    | None => result
    end in
  let result := extract_field text "matching skills" result "matching_skills" in
  let result := extract_field text "missing skills" result "missing_skills" in
  let result := extract_field text "recommendations" result "recommendations" in
  <[u "category_scores" :=
      VDict (foldl (extract_category text) zero_scores categories)]> result.

(** *** [parse_gemini_response] *)

Definition bare_candidate (response_text : pystr) : pystr :=
  let json_str := strip response_text in
  if negb (startswith (u "{") json_str && endswith (u "}") json_str) then
    match find_char (ch "{") json_str, rfind_char (ch "}") json_str with
    | Some start_idx, Some end_idx => slice start_idx (end_idx + 1) json_str
    | _, _ => json_str
    end
  else json_str.

(** [try: return json.loads(s) except json.JSONDecodeError: handler] *)
Definition loads_or (s : pystr) (handler : res value) : res value :=
  match Json.loads s with
  | Ok v => Ok v
  | Raise (JSONDecodeError _) => handler
  | Raise e => Raise e
  end.

Definition parse_bare (response_text : pystr) : res value :=
  loads_or (bare_candidate response_text)
           (Ok (VDict (parse_text_response response_text))).

Definition parse_gemini_response (response_text : pystr) : res value :=
  match Re.search fence response_text with
  | Some json_match =>
      loads_or (default [] (Re.group 1 json_match)) (parse_bare response_text)
  | None => parse_bare response_text
  end.

(** *** [validate_result_structure] *)

Section Validate.

(** [repr(v)], the interpreter's printed form of a value. *)
Variable py_repr : value -> pystr.

(** [str(v)]: a [str] is returned as it is; the other types print as
    their [repr]. *)
Definition py_str (v : value) : pystr :=
  match v with
  | VStr s => s
  | _ => py_repr v
  end.

(** [min(100, max(0, z))] *)
Definition clamp (z : Z) : Z := Z.min 100 (Z.max 0 z).

(** [min(100, max(0, int(v)))] when [v] is an [int] or a [float] *)
Definition checked_score (v : option value) : res (option Z) :=
  match v with
  | Some x => if is_number x then z ← py_int x; Ok (Some (clamp z)) else Ok None
  | None => Ok None
  end.

Definition validate_list (result validated : gmap pystr value) (field : pystr)
  : gmap pystr value :=
  match result !! field with
  | Some (VList l) => <[field := VList (take 20 ((fun x => VStr (py_str x)) <$> l))]> validated
  | _ => validated
  end.

Fixpoint validate_categories (source : gmap pystr value) (cats : list pystr)
    (scores : gmap pystr value) : res (gmap pystr value) :=
  match cats with
  | [] => Ok scores
  | category :: rest =>
      z ← checked_score (source !! category);
      validate_categories source rest
        (match z with
         | Some n => <[category := VInt n]> scores
         | None => scores
         end)
  end.

(** The attribute lookup [result.get] on something that is not a dict. *)
Definition no_get (v : value) : exn :=
  AttributeError
    (u "'" ++ match v with
              | VNone => u "NoneType"
              | VBool _ => u "bool"
              | VInt _ => u "int"
              | VFloat _ => u "float"
              | VStr _ => u "str"
              | VList _ => u "list"
              | VDict _ => u "dict"
              end ++ u "' object has no attribute 'get'").

Definition validate_result_structure (result : value) : res (gmap pystr value) :=
  match result with
  | VDict d =>
      score ← checked_score (d !! u "score");
      let validated :=
        match score with
        | Some n => <[u "score" := VInt n]> default_structure
        | None => default_structure
        end in
      let validated := foldl (validate_list d) validated list_fields in
      scores ←
        match d !! u "category_scores" with
        | Some (VDict source) => validate_categories source categories zero_scores
        | _ => Ok zero_scores
        end;
      Ok (<[u "category_scores" := VDict scores]> validated)
  | _ => Raise (no_get result)
  end.

(** *** [compare_resume_jd] *)

Definition setup_gemini (api_key : pystr) : list event := [Configure api_key].

Definition model_name : pystr := u "gemini-1.5-pro".

(** What follows [response_text = ...] inside the [try]. *)
Definition normalize_and_validate (response_text : pystr) : res (gmap pystr value) :=
  result ← parse_gemini_response response_text;
  validate_result_structure result.

Definition compare_resume_jd (w : world) (resume_text jd_text : pystr)
  : list event * gmap pystr value :=
  match GEMINI_API_KEY w with
  | None | Some [] =>
      ([], error_response (VStr (u "Gemini API key is not configured")))
  | Some api_key =>
      if (length resume_text <? 50)%nat then
        (setup_gemini api_key,
         error_response (VStr (u "Resume text is too short or couldn't be properly extracted")))
      else if (length jd_text <? 50)%nat then
        (setup_gemini api_key,
         error_response (VStr (u "Job description is too short or couldn't be properly extracted")))
      else
        let setup := setup_gemini api_key ++ [CreateModel model_name] in
        match GenerativeModel w model_name with
        | Raise e =>
            (setup, error_response (VStr (u "Failed to create Gemini model: " ++ exn_str e)))
        | Ok _ =>
            let prompt := match_prompt resume_text jd_text in
            (setup ++ [GenerateContent prompt],
             match response_text ← generate_content w prompt;
                   normalize_and_validate response_text with
             | Ok validated => validated
             | Raise e => error_response (VStr (exn_str e))
             end)
        end
  end.

End Validate.

End JdMatcher.

(** ** Vocabulary of the properties *)

(** A provider whose credential is set, whose model can be created and
    which answers every prompt with [reply]. *)
Definition world_answering (reply : pystr) : world := {|
  GEMINI_API_KEY := Some (u "test-key");
  GenerativeModel := fun _ => Ok tt;
  generate_content := fun _ => Ok reply
|}.

(** A provider whose credential is set and whose model cannot be created. *)
Definition world_without_model : world := {|
  GEMINI_API_KEY := Some (u "test-key");
  GenerativeModel := fun _ => Raise (ProviderError (u "model unavailable"));
  generate_content := fun _ => Raise (ProviderError (u "no model"))
|}.

(** A text of 62 characters. *)
Definition long_text : pystr :=
  u "Experienced software engineer with ten years of Python and Go.".

Definition nonempty_list (v : option value) : bool :=
  match v with Some (VList (_ :: _)) => true | _ => false end.

Definition nonempty_str (v : option value) : bool :=
  match v with Some (VStr (_ :: _)) => true | _ => false end.

(** The four list fields of an analysis result are non-empty lists. *)
Definition lists_nonempty (d : gmap pystr value) : bool :=
  forallb (fun field => nonempty_list (d !! field)) Analyzer.list_sections.

(** The [career_roadmap] of an analysis result is a non-empty string. *)
Definition roadmap_nonempty (d : gmap pystr value) : bool :=
  nonempty_str (d !! u "career_roadmap").

(** The result under construction in [parse_gemini_response]: its list
    fields hold lists, [career_roadmap] a string, [raw_analysis] the reply,
    and there is no [error]. *)
Definition shaped (reply : pystr) (d : gmap pystr value) : Prop :=
  (∀ field, field ∈ Analyzer.list_sections → ∃ l, d !! field = Some (VList l))
  ∧ (∃ s, d !! u "career_roadmap" = Some (VStr s))
  ∧ d !! u "raw_analysis" = Some (VStr reply)
  ∧ d !! u "error" = None.

(** The five fields of a match result. *)
Definition match_fields : list pystr :=
  u "score" :: u "category_scores" :: JdMatcher.list_fields.

Definition in_range (z : Z) : bool := ((0 <=? z) && (z <=? 100))%Z.

Definition is_score (v : option value) : bool :=
  match v with Some (VInt z) => in_range z | _ => false end.

Definition is_str (v : value) : bool :=
  match v with VStr _ => true | _ => false end.

Definition is_short_str_list (v : option value) : bool :=
  match v with
  | Some (VList l) => forallb is_str l && (length l <=? 20)%nat
  | _ => false
  end.

(** A mapping has the shape of the match result: exactly the five fields,
    an integer score in [0, 100], lists of at most 20 strings, and exactly
    the five category keys with integers in [0, 100]. *)
Definition conformant (d : gmap pystr value) : bool :=
  bool_decide (dom d = list_to_set match_fields)
  && is_score (d !! u "score")
  && forallb (fun field => is_short_str_list (d !! field)) JdMatcher.list_fields
  && match d !! u "category_scores" with
     | Some (VDict scores) =>
         bool_decide (dom scores = list_to_set JdMatcher.categories)
         && forallb (fun c => is_score (scores !! c)) JdMatcher.categories
     | _ => false
     end.

(** The value the model supplied for a category, if any. *)
Definition supplied_category (d : gmap pystr value) (c : pystr) : option value :=
  match d !! u "category_scores" with
  | Some (VDict source) => source !! c
  | _ => None
  end.

(** The fence pattern finds nothing in the reply, or what it finds is not
    JSON. *)
Definition no_parsable_fence (reply : pystr) : bool :=
  match Re.search JdMatcher.fence reply with
  | Some m =>
      match Json.loads (default [] (Re.group 1 m)) with
      | Raise (JSONDecodeError _) => true
      | _ => false
      end
  | None => true
  end.

(** The list a list field holds after validation. *)
Definition validated_list (py_repr : value → pystr) (v : option value) : list value :=
  match v with
  | Some (VList l) => take 20 ((λ x, VStr (JdMatcher.py_str py_repr x)) <$> l)
  | _ => []
  end.

(** The decoder stopped for lack of fuel. *)
Definition out_of_fuel {A} (r : res A) : bool :=
  match r with Raise (RecursionError _) => true | _ => false end.

(** The exceptions the decoder can raise. *)
Definition decode_or_fuel (e : exn) : bool :=
  match e with JSONDecodeError _ | RecursionError _ => true | _ => false end.

(** A source value is a float that [int] cannot convert. *)
Definition non_finite (v : option value) : bool :=
  match v with
  | Some (VFloat S754_nan) | Some (VFloat (S754_infinity _)) => true
  | _ => false
  end.

(** The replies used as examples. *)
Definition fenced_reply : pystr :=
  u "Sure! ```json" ++ [NL]
  ++ uq "{~score~: 105, ~matching_skills~: [~Go~], ~category_scores~: {~Technical Skills~: 200}}"
  ++ [NL] ++ u "```".

Definition prose_reply : pystr := u "Strengths:" ++ [NL] ++ u "Good communicator".
Definition numbered_reply : pystr := u "Strengths:" ++ [NL] ++ u "1. Python".

(** A conformant JSON object one of whose recommendations quotes a fenced
    block. *)
Definition quoting_reply : pystr :=
  uq "{~score~: 50, ~matching_skills~: [], ~missing_skills~: [], ~recommendations~: [~```json { } ```~], ~category_scores~: {~Technical Skills~: 1, ~Experience~: 2, ~Education~: 3, ~Soft Skills~: 4, ~Industry Knowledge~: 5}}".

Definition quoting_object : gmap pystr value := dict_of [
  ("score", VInt 50);
  ("matching_skills", VList []);
  ("missing_skills", VList []);
  ("recommendations", strs ["```json { } ```"]);
  ("category_scores", VDict (dict_of [
     ("Technical Skills", VInt 1); ("Experience", VInt 2); ("Education", VInt 3);
     ("Soft Skills", VInt 4); ("Industry Knowledge", VInt 5)]))
].

(** A conformant JSON object. *)
Definition plain_reply : pystr :=
  uq "{~score~: 50, ~matching_skills~: [~Go~], ~missing_skills~: [], ~recommendations~: [], ~category_scores~: {~Technical Skills~: 1, ~Experience~: 2, ~Education~: 3, ~Soft Skills~: 4, ~Industry Knowledge~: 5}}".

Definition plain_object : gmap pystr value := dict_of [
  ("score", VInt 50);
  ("matching_skills", strs ["Go"]);
  ("missing_skills", VList []);
  ("recommendations", VList []);
  ("category_scores", VDict (dict_of [
     ("Technical Skills", VInt 1); ("Experience", VInt 2); ("Education", VInt 3);
     ("Soft Skills", VInt 4); ("Industry Knowledge", VInt 5)]))
].

(** A JSON object that carries a [raw_analysis] key of its own. *)
Definition raw_key_reply : pystr := uq "{~raw_analysis~: ~x~}".

(** A printed form that is never looked at. *)
Definition no_repr : value -> pystr := fun _ => [].


(** ** Properties *)

(** *** Literal keys *)

(** Two literal keys differ. *)
Ltac keys_differ :=
  let H := fresh in intros H; vm_compute in H; discriminate H.

Ltac key_cases H :=
  repeat (apply elem_of_cons in H as [-> | H]); [.. | by apply elem_of_nil in H].

Ltac resolve_keys :=
  repeat first [rewrite bool_decide_eq_true_2 by reflexivity
               |rewrite bool_decide_eq_false_2 by keys_differ];
  cbv beta iota.

(** *** [json.loads] returns or raises [JSONDecodeError] *)

Lemma drop_while_length p s : (length (drop_while p s) ≤ length s)%nat.
Proof. induction s as [|c s IH]; cbn; [lia|]. destruct (p c); cbn; lia. Qed.

Lemma skip_ws_length s : (length (Json.skip_ws s) ≤ length s)%nat.
Proof. apply drop_while_length. Qed.

Lemma scanstring_spec n : ∀ s acc,
  (length s ≤ n)%nat →
  out_of_fuel (Json.scanstring s acc) = false
  ∧ ∀ r rest, Json.scanstring s acc = Ok (r, rest) → (length rest < length s)%nat.
Proof.
  induction n as [n IH] using lt_wf_ind. intros s acc Hn.
  assert (∀ s' acc', (length s' < length s)%nat →
            out_of_fuel (Json.scanstring s' acc') = false
            ∧ ∀ r rest, Json.scanstring s' acc' = Ok (r, rest) →
                        (length rest < length s')%nat) as IH'.
  { intros s' acc' Hlt. apply (IH (length s')); lia. }
  clear IH.
  destruct s as [|c s1]; [done|]. cbn [Json.scanstring].
  repeat (case_match; try (split; [done|]; intros; simplify_eq; cbn [length]; lia); try done);
    subst; cbn [length] in *;
    match goal with
    | |- context [Json.scanstring ?s' ?a] =>
        destruct (IH' s' a) as [Hf Hl]; [cbn [length]; lia|];
        split; [exact Hf|]; intros r rest Hr; apply Hl in Hr; cbn [length] in *; lia
    end.
Qed.

Lemma expect_spec lit v s :
  (0 < length lit)%nat →
  out_of_fuel (Json.expect lit v s) = false
  ∧ ∀ v' rest, Json.expect lit v s = Ok (v', rest) → (length rest < length s)%nat.
Proof.
  intros Hlit. unfold Json.expect. destruct (startswith lit s) eqn:Hs; [|done].
  split; [done|]. intros v' rest H. simplify_eq. rewrite length_drop.
  destruct lit, s; cbn in *; try done; lia.
Qed.

Ltac drop_facts :=
  repeat match goal with
  | H : drop_while ?p ?a = ?b |- _ =>
      lazymatch goal with
      | _ : (length b ≤ length a)%nat |- _ => fail
      | _ => assert (length b ≤ length a)%nat by (rewrite <- H; apply drop_while_length)
      end
  | |- context [drop_while ?p ?s] =>
      lazymatch goal with
      | _ : (length (drop_while p s) ≤ length s)%nat |- _ => fail
      | _ => pose proof (drop_while_length p s)
      end
  end.

Lemma match_number_length s v rest :
  Json.match_number s = Some (v, rest) → (length rest < length s)%nat.
Proof.
  unfold Json.match_number. intros H.
  repeat case_match; simplify_eq; cbn [drop_while] in *;
    repeat case_match; simplify_eq; drop_facts; cbn [length] in *; lia.
Qed.

Ltac length_facts IH1 IH2 IH3 :=
  repeat match goal with
  | H : Json.skip_ws ?a = ?b |- _ =>
      lazymatch goal with
      | _ : (length b ≤ length a)%nat |- _ => fail
      | _ => assert (length b ≤ length a)%nat by (rewrite <- H; apply skip_ws_length)
      end
  | _ : context [Json.skip_ws ?a] |- _ =>
      lazymatch goal with
      | _ : (length (Json.skip_ws a) ≤ length a)%nat |- _ => fail
      | _ => pose proof (skip_ws_length a)
      end
  | |- context [Json.skip_ws ?a] =>
      lazymatch goal with
      | _ : (length (Json.skip_ws a) ≤ length a)%nat |- _ => fail
      | _ => pose proof (skip_ws_length a)
      end
  | H : Json.scanstring ?a ?acc = Ok (?r, ?rest) |- _ =>
      lazymatch goal with
      | _ : (length rest < length a)%nat |- _ => fail
      | _ => assert (length rest < length a)%nat
               by (eapply (scanstring_spec (length a)); [lia|exact H])
      end
  | H : Json.scan_once _ ?a = Ok (?r, ?rest) |- _ =>
      lazymatch goal with
      | _ : (length rest < length a)%nat |- _ => fail
      | _ => assert (length rest < length a)%nat by (eapply IH1; exact H)
      end
  | H : Json.parse_members _ ?a _ = Ok (?r, ?rest) |- _ =>
      lazymatch goal with
      | _ : (length rest < length a)%nat |- _ => fail
      | _ => assert (length rest < length a)%nat by (eapply IH2; exact H)
      end
  | H : Json.parse_elements _ ?a _ = Ok (?r, ?rest) |- _ =>
      lazymatch goal with
      | _ : (length rest < length a)%nat |- _ => fail
      | _ => assert (length rest < length a)%nat by (eapply IH3; exact H)
      end
  | H : Json.expect ?lit _ ?a = Ok (?r, ?rest) |- _ =>
      lazymatch goal with
      | _ : (length rest < length a)%nat |- _ => fail
      | _ => assert (length rest < length a)%nat
               by (eapply (expect_spec lit); [vm_compute; lia|exact H])
      end
  | H : Json.match_number ?a = Some (?r, ?rest) |- _ =>
      lazymatch goal with
      | _ : (length rest < length a)%nat |- _ => fail
      | _ => assert (length rest < length a)%nat by (eapply match_number_length; exact H)
      end
  end.

(** Every successful scan consumes at least one character. *)
Lemma scan_length fuel :
  (∀ s v rest, Json.scan_once fuel s = Ok (v, rest) → (length rest < length s)%nat)
  ∧ (∀ s acc v rest, Json.parse_members fuel s acc = Ok (v, rest) →
                     (length rest < length s)%nat)
  ∧ (∀ s acc v rest, Json.parse_elements fuel s acc = Ok (v, rest) →
                     (length rest < length s)%nat).
Proof.
  induction fuel as [|fuel (IH1 & IH2 & IH3)]; [done|].
  repeat split.
  - intros s v rest H. cbn [Json.scan_once] in H. unfold mbind, res_bind in H.
    repeat case_match; simplify_eq; length_facts IH1 IH2 IH3;
      try rewrite length_drop; cbn [length] in *; lia.
  - intros s acc v rest H. cbn [Json.parse_members] in H. unfold mbind, res_bind in H.
    repeat case_match; simplify_eq; length_facts IH1 IH2 IH3;
      cbn [length] in *; lia.
  - intros s acc v rest H. cbn [Json.parse_elements] in H. unfold mbind, res_bind in H.
    repeat case_match; simplify_eq; length_facts IH1 IH2 IH3;
      cbn [length] in *; lia.
Qed.

Ltac fuel_leaf IH1 IH2 IH3 :=
  match goal with
  | |- out_of_fuel (Ok _) = false => reflexivity
  | |- out_of_fuel (Json.decode_error _) = false => reflexivity
  | H : Json.scanstring ?a ?acc = Raise ?e |- out_of_fuel (Raise ?e) = false =>
      let Hx := fresh in
      assert (out_of_fuel (Json.scanstring a acc) = false) as Hx
        by (apply (scanstring_spec (length a)); lia);
      rewrite H in Hx; exact Hx
  | H : Json.scan_once ?f ?a = Raise ?e |- out_of_fuel (Raise ?e) = false =>
      let Hx := fresh in
      assert (out_of_fuel (Json.scan_once f a) = false) as Hx
        by (apply IH1; cbn [length] in *; lia);
      rewrite H in Hx; exact Hx
  | |- out_of_fuel (Json.expect ?lit _ _) = false =>
      apply (expect_spec lit); vm_compute; lia
  | |- out_of_fuel (Json.scan_once _ _) = false => apply IH1; cbn [length] in *; lia
  | |- out_of_fuel (Json.parse_members _ _ _) = false =>
      apply IH2; cbn [length] in *; lia
  | |- out_of_fuel (Json.parse_elements _ _ _) = false =>
      apply IH3; cbn [length] in *; lia
  end.

(** With fuel for twice the length of the text and two more, no scan runs
    out of fuel. *)
Lemma scan_fuel fuel :
  (∀ s, (2 * length s + 1 ≤ fuel)%nat → out_of_fuel (Json.scan_once fuel s) = false)
  ∧ (∀ s acc, (2 * length s + 2 ≤ fuel)%nat →
              out_of_fuel (Json.parse_members fuel s acc) = false)
  ∧ (∀ s acc, (2 * length s + 2 ≤ fuel)%nat →
              out_of_fuel (Json.parse_elements fuel s acc) = false).
Proof.
  induction fuel as [|fuel (IH1 & IH2 & IH3)]; [repeat split; intros; lia|].
  destruct (scan_length fuel) as (L1 & L2 & L3).
  repeat split.
  - intros s Hs. cbn [Json.scan_once]. unfold mbind, res_bind.
    repeat case_match; simplify_eq; length_facts L1 L2 L3; cbn [length] in *;
      fuel_leaf IH1 IH2 IH3.
  - intros s acc Hs. cbn [Json.parse_members]. unfold mbind, res_bind.
    repeat case_match; simplify_eq; length_facts L1 L2 L3; cbn [length] in *;
      fuel_leaf IH1 IH2 IH3.
  - intros s acc Hs. cbn [Json.parse_elements]. unfold mbind, res_bind.
    repeat case_match; simplify_eq; length_facts L1 L2 L3; cbn [length] in *;
      fuel_leaf IH1 IH2 IH3.
Qed.

(** [json.loads] never stops for lack of fuel. *)
Lemma loads_fuel_enough s : out_of_fuel (Json.loads s) = false.
Proof.
  unfold Json.loads.
  pose proof (skip_ws_length s) as Hws.
  destruct (scan_fuel (2 * length s + 2)) as (Hfuel & _ & _).
  specialize (Hfuel (Json.skip_ws s) ltac:(lia)).
  destruct (Json.scan_once _ _) as [[v rest]|e]; cbn.
  - by destruct (Json.skip_ws rest).
  - exact Hfuel.
Qed.

Lemma scanstring_raises n : ∀ s acc e,
  (length s ≤ n)%nat → Json.scanstring s acc = Raise e → decode_or_fuel e = true.
Proof.
  induction n as [n IH] using lt_wf_ind. intros s acc e Hn.
  assert (∀ s' acc', (length s' < length s)%nat →
            Json.scanstring s' acc' = Raise e → decode_or_fuel e = true) as IH'.
  { intros s' acc' Hlt. apply (IH (length s')); lia. }
  clear IH.
  destruct s as [|c s1]; cbn [Json.scanstring]; unfold Json.decode_error;
    [by intros; simplify_eq|].
  repeat (case_match; try (by intros; simplify_eq)); subst;
    apply IH'; cbn [length]; lia.
Qed.

Lemma scan_raises fuel :
  (∀ s e, Json.scan_once fuel s = Raise e → decode_or_fuel e = true)
  ∧ (∀ s acc e, Json.parse_members fuel s acc = Raise e → decode_or_fuel e = true)
  ∧ (∀ s acc e, Json.parse_elements fuel s acc = Raise e → decode_or_fuel e = true).
Proof.
  induction fuel as [|fuel (IH1 & IH2 & IH3)];
    [by repeat split; intros; simplify_eq/=|].
  repeat split.
  - intros s e H. cbn [Json.scan_once] in H.
    unfold mbind, res_bind, Json.expect, Json.decode_error in H.
    repeat case_match; simplify_eq; eauto using scanstring_raises.
  - intros s acc e H. cbn [Json.parse_members] in H.
    unfold mbind, res_bind, Json.decode_error in H.
    repeat case_match; simplify_eq; eauto using scanstring_raises.
  - intros s acc e H. cbn [Json.parse_elements] in H.
    unfold mbind, res_bind, Json.decode_error in H.
    repeat case_match; simplify_eq; eauto using scanstring_raises.
Qed.

(** [json.loads] returns a value or raises [JSONDecodeError]. *)
Lemma loads_total s :
  (∃ v, Json.loads s = Ok v) ∨ (∃ msg, Json.loads s = Raise (JSONDecodeError msg)).
Proof.
  pose proof (loads_fuel_enough s) as Hfuel. unfold Json.loads in *.
  destruct (scan_raises (2 * length s + 2)) as (Hraise & _ & _).
  destruct (Json.scan_once _ _) as [[v rest]|e] eqn:Hscan; cbn in *.
  - destruct (Json.skip_ws rest); [left|right]; eauto.
  - right. apply Hraise in Hscan. destruct e; try done. eauto.
Qed.

(** *** The resume-analysis flow: strict parsing *)

(** With the credential set, the model created and a text of at least 50
    characters, [analyze_resume] sends one prompt and returns what
    [normalize] makes of the reply. *)
Lemma analyze_resume_after_reply w resume_text api_key reply :
  GEMINI_API_KEY w = Some api_key → api_key ≠ [] →
  is_ok (GenerativeModel w Analyzer.model_name) = true →
  (50 ≤ length resume_text)%nat →
  generate_content w (Analyzer.analysis_prompt resume_text) = Ok reply →
  Analyzer.analyze_resume w resume_text =
    ([Configure api_key; CreateModel Analyzer.model_name;
      GenerateContent (Analyzer.analysis_prompt resume_text)],
     match Analyzer.normalize reply with
     | Ok result => result
     | Raise e => VDict (Analyzer.api_error_result e)
     end).
Proof.
  intros Hkey Hne Hmodel Hlen Hgen. unfold Analyzer.analyze_resume.
  rewrite Hkey. destruct api_key as [|c key]; [done|].
  destruct (GenerativeModel w Analyzer.model_name); [|done].
  destruct (Nat.ltb_spec (length resume_text) 50) as [?|_]; [lia|].
  rewrite Hgen. reflexivity.
Qed.

Lemma ensure_field_dict d field :
  Analyzer.ensure_field (VDict d) field =
  Ok (VDict (match d !! field with
             | Some _ => d
             | None => <[field := Analyzer.field_default field]> d
             end)).
Proof. unfold Analyzer.ensure_field. by destruct (d !! field). Qed.

Lemma ensure_fields_dict fields : ∀ d,
  ∃ d', Analyzer.ensure_fields (VDict d) fields = Ok (VDict d')
        ∧ ∀ k, d' !! k = match d !! k with
                         | Some v => Some v
                         | None => if bool_decide (k ∈ fields)
                                   then Some (Analyzer.field_default k) else None
                         end.
Proof.
  induction fields as [|f fields IH]; intros d.
  - exists d. split; [done|]. intros k. by destruct (d !! k).
  - cbn [Analyzer.ensure_fields]. rewrite ensure_field_dict. cbn.
    destruct (IH (match d !! f with
                  | Some _ => d
                  | None => <[f := Analyzer.field_default f]> d
                  end)) as (d' & Heq & Hd').
    exists d'. split; [exact Heq|]. intros k. rewrite Hd'.
    destruct (decide (k = f)) as [->|Hkf].
    + rewrite (bool_decide_eq_true_2 (f ∈ f :: fields)) by apply list_elem_of_here.
      destruct (d !! f) eqn:Hf; [by rewrite Hf|]. by rewrite lookup_insert_eq.
    + assert (bool_decide (k ∈ f :: fields) = bool_decide (k ∈ fields)) as ->.
      { apply bool_decide_ext. rewrite elem_of_cons. split; [by intros [?|?] | by right]. }
      destruct (d !! f) eqn:Hf; [done|]. by rewrite lookup_insert_ne.
Qed.

(** Strict parsing of a reply whose candidate is a JSON object. *)
Lemma strict_parse_object reply d :
  Json.loads (Analyzer.json_candidate reply) = Ok (VDict d) →
  ∃ d', Analyzer.strict_parse reply = Ok (VDict d')
        ∧ ∀ k, d' !! k = match d !! k with
                         | Some v => Some v
                         | None => if bool_decide (k ∈ Analyzer.required_fields)
                                   then Some (Analyzer.field_default k) else None
                         end.
Proof.
  intros Hloads. unfold Analyzer.strict_parse. rewrite Hloads.
  exact (ensure_fields_dict Analyzer.required_fields d).
Qed.

Lemma ensure_field_keeps_dict v field d' :
  Analyzer.ensure_field v field = Ok (VDict d') → ∃ d, v = VDict d.
Proof.
  destruct v; cbn; intros H; repeat case_match; simplify_eq; eauto.
Qed.

Lemma ensure_fields_keeps_dict fields : ∀ v d',
  Analyzer.ensure_fields v fields = Ok (VDict d') → ∃ d, v = VDict d.
Proof.
  induction fields as [|f fields IH]; intros v d' H.
  - cbn in H. simplify_eq. eauto.
  - cbn [Analyzer.ensure_fields] in H.
    destruct (Analyzer.ensure_field v f) as [v1|e] eqn:Hf; [|done].
    destruct (IH _ _ H) as [d1 ->]. by eapply ensure_field_keeps_dict.
Qed.

(** A mapping returned by strict parsing has the five required fields. *)
Lemma strict_parse_fields reply d' field :
  Analyzer.strict_parse reply = Ok (VDict d') →
  field ∈ Analyzer.required_fields → is_Some (d' !! field).
Proof.
  intros Hstrict Hfield. unfold Analyzer.strict_parse in Hstrict.
  destruct (Json.loads (Analyzer.json_candidate reply)) as [v|e] eqn:Hloads; [|done].
  destruct (ensure_fields_keeps_dict _ _ _ Hstrict) as [d ->].
  destruct (strict_parse_object reply d Hloads) as (d1 & H1 & Hlook).
  unfold Analyzer.strict_parse in H1. rewrite Hloads in H1.
  assert (d1 = d') as -> by congruence.
  rewrite Hlook. destruct (d !! field); [done|].
  by rewrite bool_decide_eq_true_2.
Qed.

(** C10.  When the candidate parses to a JSON object, [analyze_resume]
    returns that object with the missing required fields added: the empty
    list for a list field, a fixed sentence for [career_roadmap].  Every key
    of the object keeps its value, whatever it is. *)
Theorem strict_success_backfills_only w resume_text api_key reply d :
  GEMINI_API_KEY w = Some api_key → api_key ≠ [] →
  is_ok (GenerativeModel w Analyzer.model_name) = true →
  (50 ≤ length resume_text)%nat →
  generate_content w (Analyzer.analysis_prompt resume_text) = Ok reply →
  Json.loads (Analyzer.json_candidate reply) = Ok (VDict d) →
  ∃ d', (Analyzer.analyze_resume w resume_text).2 = VDict d'
        ∧ ∀ k, d' !! k =
               match d !! k with
               | Some v => Some v
               | None =>
                   if bool_decide (k ∈ Analyzer.list_sections) then Some (VList [])
                   else if bool_decide (k = u "career_roadmap")
                        then Some (VStr (u "No information provided"))
                        else None
               end.
Proof.
  intros Hkey Hne Hmodel Hlen Hgen Hloads.
  rewrite (analyze_resume_after_reply w resume_text api_key reply) by done.
  cbn [snd]. unfold Analyzer.normalize.
  destruct (strict_parse_object reply d Hloads) as (d' & -> & Hlook).
  exists d'. split; [done|]. intros k. rewrite Hlook.
  destruct (d !! k); [done|].
  unfold Analyzer.required_fields, Analyzer.list_sections, Analyzer.field_default.
  repeat case_bool_decide; try done; exfalso; set_solver.
Qed.

(** C10, witness: the theorem at [raw_key_reply]. *)
Lemma strict_success_backfills_only_witness :
  ∃ d', (Analyzer.analyze_resume (world_answering raw_key_reply) long_text).2 = VDict d'
        ∧ ∀ k, d' !! k =
               match ({[ u "raw_analysis" := VStr (u "x") ]} : gmap pystr value) !! k with
               | Some v => Some v
               | None =>
                   if bool_decide (k ∈ Analyzer.list_sections) then Some (VList [])
                   else if bool_decide (k = u "career_roadmap")
                        then Some (VStr (u "No information provided"))
                        else None
               end.
Proof.
  apply (strict_success_backfills_only (world_answering raw_key_reply) long_text
           (u "test-key") raw_key_reply).
  - reflexivity.
  - discriminate.
  - reflexivity.
  - vm_compute. lia.
  - reflexivity.
  - vm_compute. reflexivity.
Defined.

(** *** The resume-analysis flow: the heuristic fallback *)

Lemma shaped_initial reply : shaped reply (Analyzer.initial_result reply).
Proof.
  repeat split.
  - intros field H. key_cases H; eexists; vm_compute; reflexivity.
  - eexists; vm_compute; reflexivity.
Qed.

Lemma shaped_append reply section item d :
  shaped reply d → shaped reply (Analyzer.append_item section item d).
Proof.
  intros (Hl & [s Hs] & Hraw & Herr). unfold Analyzer.append_item.
  repeat split.
  - intros field Hf. destruct (Hl field Hf) as [l Hfl].
    rewrite lookup_alter. case_decide; subst; rewrite Hfl; cbn; eauto.
  - rewrite lookup_alter. case_decide; subst; rewrite Hs; cbn; eauto.
  - rewrite lookup_alter. case_decide; subst; rewrite Hraw; cbn; eauto.
  - rewrite lookup_alter. case_decide; subst; rewrite Herr; cbn; eauto.
Qed.

Lemma shaped_scan_line reply st raw st' :
  Analyzer.scan_line st raw = Ok st' → shaped reply st.1 → shaped reply st'.1.
Proof.
  destruct st as [result current]. unfold Analyzer.scan_line. cbn [fst].
  intros Hstep Hsh. repeat case_match; simplify_eq; cbn [fst];
    auto using shaped_append.
Qed.

Lemma shaped_scan_lines reply lines : ∀ st st',
  Analyzer.scan_lines st lines = Ok st' → shaped reply st.1 → shaped reply st'.1.
Proof.
  induction lines as [|line lines IH]; intros st st' Hscan Hsh.
  - by simplify_eq/=.
  - cbn [Analyzer.scan_lines] in Hscan.
    destruct (Analyzer.scan_line st line) as [st1|e] eqn:Hline; [|done].
    eapply IH; [exact Hscan|]. by eapply shaped_scan_line.
Qed.

Lemma shaped_positional reply d :
  shaped reply d → shaped reply (Analyzer.positional reply d).
Proof.
  intros Hsh. unfold Analyzer.positional.
  destruct (negb _); [|done].
  destruct (split [NL; NL] reply) as [|p0 [|p1 [|p2 [|p3 [|p4 rest]]]]]; try done.
  destruct Hsh as (Hl & [s Hs] & Hraw & Herr).
  repeat split.
  - intros field H. key_cases H; eexists.
    + rewrite !lookup_insert_ne by keys_differ. apply lookup_insert_eq.
    + rewrite !lookup_insert_ne by keys_differ. apply lookup_insert_eq.
    + rewrite !lookup_insert_ne by keys_differ. apply lookup_insert_eq.
    + apply lookup_insert_eq.
  - eexists. rewrite lookup_insert_ne by keys_differ. apply lookup_insert_eq.
  - by rewrite !lookup_insert_ne by keys_differ.
  - by rewrite !lookup_insert_ne by keys_differ.
Qed.

Lemma fill_other k v d k' : u k ≠ k' → Analyzer.fill k v d !! k' = d !! k'.
Proof.
  intros Hne. unfold Analyzer.fill. destruct (negb _); [|done].
  by rewrite lookup_insert_ne.
Qed.

Lemma fill_list_keeps k v d k' :
  nonempty_list (d !! k') = true → nonempty_list (Analyzer.fill k v d !! k') = true.
Proof.
  intros Hk'. unfold Analyzer.fill.
  destruct (truthy (item d k)) eqn:Ht; cbn [negb]; [done|].
  destruct (decide (u k = k')) as [<-|Hne]; [|by rewrite lookup_insert_ne].
  unfold item in Ht. destruct (d !! u k) as [[]|]; try done.
  by destruct l.
Qed.

Lemma fill_str_keeps k v d k' :
  nonempty_str (d !! k') = true → nonempty_str (Analyzer.fill k v d !! k') = true.
Proof.
  intros Hk'. unfold Analyzer.fill.
  destruct (truthy (item d k)) eqn:Ht; cbn [negb]; [done|].
  destruct (decide (u k = k')) as [<-|Hne]; [|by rewrite lookup_insert_ne].
  unfold item in Ht. destruct (d !! u k) as [[]|]; try done.
  by destruct s.
Qed.

Lemma fill_list_here k v d l :
  d !! u k = Some (VList l) → nonempty_list (Some v) = true →
  nonempty_list (Analyzer.fill k v d !! u k) = true.
Proof.
  intros Hk Hv. unfold Analyzer.fill, item. rewrite Hk.
  destruct l; simpl; [by rewrite lookup_insert_eq|by rewrite Hk].
Qed.

Lemma fill_str_here k v d s :
  d !! u k = Some (VStr s) → nonempty_str (Some v) = true →
  nonempty_str (Analyzer.fill k v d !! u k) = true.
Proof.
  intros Hk Hv. unfold Analyzer.fill, item. rewrite Hk.
  destruct s; simpl; [by rewrite lookup_insert_eq|by rewrite Hk].
Qed.

(** After the placeholders are filled in, every section has content. *)
Lemma placeholders_complete reply d :
  shaped reply d →
  let d' := Analyzer.placeholders d in
  lists_nonempty d' = true ∧ roadmap_nonempty d' = true
  ∧ d' !! u "raw_analysis" = Some (VStr reply) ∧ d' !! u "error" = None.
Proof.
  intros (Hl & [s Hs] & Hraw & Herr) d'. subst d'. unfold Analyzer.placeholders.
  destruct (Hl (u "strengths")) as [l1 H1]; [set_solver|].
  destruct (Hl (u "areas_of_improvement")) as [l2 H2]; [set_solver|].
  destruct (Hl (u "project_recommendations")) as [l3 H3]; [set_solver|].
  destruct (Hl (u "recommended_courses")) as [l4 H4]; [set_solver|].
  repeat split.
  - unfold lists_nonempty, Analyzer.list_sections. cbn [forallb].
    rewrite !andb_true_iff. repeat split.
    + do 4 apply fill_list_keeps. by eapply fill_list_here.
    + do 3 apply fill_list_keeps. eapply fill_list_here; [|done].
      rewrite fill_other by keys_differ. exact H2.
    + do 2 apply fill_list_keeps. eapply fill_list_here; [|done].
      rewrite !fill_other by keys_differ. exact H3.
    + eapply fill_list_here; [|done].
      rewrite !fill_other by keys_differ. exact H4.
  - unfold roadmap_nonempty. apply fill_str_keeps. eapply fill_str_here; [|done].
    rewrite !fill_other by keys_differ. exact Hs.
  - rewrite !fill_other by keys_differ. exact Hraw.
  - rewrite !fill_other by keys_differ. exact Herr.
Qed.

(** Whenever the heuristic fallback returns, its result has no [error],
    keeps the reply under [raw_analysis], and has content in every section. *)
Lemma fallback_result reply d :
  Analyzer.parse_gemini_response reply = Ok d →
  lists_nonempty d = true ∧ roadmap_nonempty d = true
  ∧ d !! u "raw_analysis" = Some (VStr reply) ∧ d !! u "error" = None.
Proof.
  unfold Analyzer.parse_gemini_response. intros H.
  destruct (Analyzer.scan_lines _ _) as [[result current]|e] eqn:Hscan; [|done].
  cbn in H. simplify_eq.
  apply placeholders_complete, shaped_positional.
  by apply (shaped_scan_lines reply _ _ _ Hscan), shaped_initial.
Qed.

(** A line makes the heuristic fallback raise exactly when it is not
    blank, is not a header, follows a recognised header, and is not a
    bullet; the exception is the [NameError] for [re]. *)
Lemma scan_line_raises result current raw e :
  Analyzer.scan_line (result, current) raw = Raise e ↔
  strip raw ≠ [] ∧ Analyzer.find_section (strip raw) = None
  ∧ is_Some current ∧ Analyzer.is_bullet (strip raw) = false
  ∧ e = NameError (u "name 're' is not defined").
Proof.
  unfold Analyzer.scan_line.
  destruct (strip raw) as [|c line] eqn:Hline.
  { split; [done|]. by intros [? _]. }
  destruct (Analyzer.find_section (c :: line)) as [section|].
  { split; [done|]. by intros (_ & ? & _). }
  destruct current as [section|].
  - destruct (Analyzer.is_bullet (c :: line)).
    + split; [by case_bool_decide|]. by intros (_ & _ & _ & ? & _).
    + split; [intros ?; simplify_eq; eauto 10|]. by intros (_ & _ & _ & _ & ->).
  - split; [done|]. intros (_ & _ & [? ?] & _). done.
Qed.

Example strengths_bullet_example :
  ∃ d, Analyzer.normalize (u "Strengths:" ++ [NL] ++ u "- Strong Python skills") = Ok (VDict d)
       ∧ d !! u "strengths" = Some (strs ["Strong Python skills"])
       ∧ d !! u "raw_analysis"
         = Some (VStr (u "Strengths:" ++ [NL] ++ u "- Strong Python skills")).
Proof. eexists. repeat split; vm_compute; reflexivity. Qed.

Example gibberish_example :
  Analyzer.normalize (u "qwertyuiop") = Ok (VDict (dict_of [
    ("strengths", strs ["Could not extract strengths from analysis"]);
    ("areas_of_improvement", strs ["Could not extract areas of improvement from analysis"]);
    ("project_recommendations",
       strs ["Could not extract project recommendations from analysis"]);
    ("career_roadmap", VStr (u "Could not extract career roadmap from analysis"));
    ("recommended_courses", strs ["Could not extract recommended courses from analysis"]);
    ("raw_analysis", VStr (u "qwertyuiop"))
  ])).
Proof. vm_compute. reflexivity. Qed.

(** When strict parsing fails, [analyze_resume] returns the result of the
    heuristic fallback if it returns, and otherwise the provider-error
    result carrying the text of the exception the fallback raised. *)
Lemma fallback_outcome w resume_text api_key reply :
  GEMINI_API_KEY w = Some api_key → api_key ≠ [] →
  is_ok (GenerativeModel w Analyzer.model_name) = true →
  (50 ≤ length resume_text)%nat →
  generate_content w (Analyzer.analysis_prompt resume_text) = Ok reply →
  is_ok (Analyzer.strict_parse reply) = false →
  match Analyzer.parse_gemini_response reply with
  | Ok d =>
      (Analyzer.analyze_resume w resume_text).2 = VDict d ∧ d !! u "error" = None
  | Raise e =>
      (Analyzer.analyze_resume w resume_text).2 = VDict (Analyzer.api_error_result e)
      ∧ Analyzer.api_error_result e !! u "error" = Some (VStr (exn_str e))
  end.
Proof.
  intros Hkey Hne Hmodel Hlen Hgen Hfail.
  rewrite (analyze_resume_after_reply w resume_text api_key reply) by done.
  cbn [snd]. unfold Analyzer.normalize.
  destruct (Analyzer.strict_parse reply) as [|json_error]; [done|].
  destruct (Analyzer.parse_gemini_response reply) as [d|e] eqn:Hfb.
  - split; [done|]. by apply (fallback_result reply).
  - split; [done|]. vm_compute. reflexivity.
Qed.

(** C1 (the code departs from the claim).  When the model replies with a
    section header followed by a line of plain prose, strict parsing fails,
    the heuristic fallback raises [NameError] at its first use of [re], and
    [analyze_resume] returns the provider-error result, whose [error] field
    carries the exception text.  The same happens for a numbered item. *)
Theorem prose_line_surfaces_error :
  is_ok (Analyzer.strict_parse prose_reply) = false
  ∧ Analyzer.parse_gemini_response prose_reply
    = Raise (NameError (u "name 're' is not defined"))
  ∧ (Analyzer.analyze_resume (world_answering prose_reply) long_text).2
    = VDict (Analyzer.api_error_result (NameError (u "name 're' is not defined")))
  ∧ Analyzer.api_error_result (NameError (u "name 're' is not defined")) !! u "error"
    = Some (VStr (u "name 're' is not defined"))
  ∧ (Analyzer.analyze_resume (world_answering numbered_reply) long_text).2
    = VDict (Analyzer.api_error_result (NameError (u "name 're' is not defined"))).
Proof. repeat split; vm_compute; reflexivity. Qed.

(** *** The resume-analysis flow: the sections of the result *)

(** C2, counterexample.  When the model replies with the empty JSON object,
    strict parsing succeeds and the four list fields are back-filled with
    empty lists; the too-short result has empty lists as well. *)
Lemma empty_object_reply_has_empty_lists :
  (∃ d, (Analyzer.analyze_resume (world_answering (u "{}")) long_text).2 = VDict d
        ∧ d !! u "error" = None
        ∧ d !! u "strengths" = Some (VList [])
        ∧ lists_nonempty d = false)
  ∧ lists_nonempty Analyzer.too_short_result = false.
Proof.
  split; [eexists; repeat split|]; vm_compute; reflexivity.
Qed.

(** C2, as amended.  On every path other than a successful strict parse
    the career roadmap is a non-empty string, and a result without [error]
    (the heuristic fallback) has four non-empty lists.  After a successful
    strict parse the result is the back-filled JSON value: a mapping then
    has all five fields, and they may be empty. *)
Theorem sections_by_path w resume_text :
  let r := (Analyzer.analyze_resume w resume_text).2 in
  (∃ reply, generate_content w (Analyzer.analysis_prompt resume_text) = Ok reply
            ∧ Analyzer.strict_parse reply = Ok r
            ∧ ∀ d field, r = VDict d → field ∈ Analyzer.required_fields →
                         is_Some (d !! field))
  ∨ (∃ d, r = VDict d ∧ roadmap_nonempty d = true
          ∧ (d !! u "error" = None → lists_nonempty d = true)).
Proof.
  cbv zeta. unfold Analyzer.analyze_resume.
  destruct (GEMINI_API_KEY w) as [[|c key]|].
  - right. eexists. split; [done|]. split; vm_compute; [done|discriminate].
  - destruct (GenerativeModel w Analyzer.model_name) as [[]|e].
    + destruct (length resume_text <? 50)%nat.
      * right. eexists. split; [done|]. split; vm_compute; [done|discriminate].
      * cbn [snd].
        destruct (generate_content w (Analyzer.analysis_prompt resume_text))
          as [reply|e] eqn:Hgen.
        -- unfold mbind, res_bind, Analyzer.normalize. cbv beta iota.
           destruct (Analyzer.strict_parse reply) as [r|e] eqn:Hstrict.
           ++ left. exists reply. split; [done|]. split; [done|].
              intros d field ->. by apply (strict_parse_fields reply).
           ++ right.
              destruct (Analyzer.parse_gemini_response reply) as [d|e'] eqn:Hfb.
              ** exists d. destruct (fallback_result reply d Hfb) as (?&?&?&?).
                 by repeat split.
              ** eexists. split; [done|]. split; vm_compute; [done|discriminate].
        -- right. eexists. split; [done|]. split; vm_compute; [done|discriminate].
    + right. eexists. split; [done|]. split; vm_compute; [done|discriminate].
  - right. eexists. split; [done|]. split; vm_compute; [done|discriminate].
Qed.

(** C8, counterexample.  A reply that is a JSON object with a key
    [raw_analysis] parses strictly, and the result contains that key. *)
Lemma model_supplied_raw_analysis :
  is_ok (Analyzer.strict_parse raw_key_reply) = true
  ∧ ∃ d, (Analyzer.analyze_resume (world_answering raw_key_reply) long_text).2 = VDict d
         ∧ d !! u "raw_analysis" = Some (VStr (u "x")).
Proof.
  split; [|eexists; split]; vm_compute; reflexivity.
Qed.

(** C8, as amended.  When the candidate parses to a JSON object, the result
    carries [raw_analysis] exactly as that object does.  When strict parsing
    fails and the heuristic fallback returns, the result is the fallback's
    and holds the reply under [raw_analysis]. *)
Theorem raw_analysis_presence w resume_text api_key reply :
  GEMINI_API_KEY w = Some api_key → api_key ≠ [] →
  is_ok (GenerativeModel w Analyzer.model_name) = true →
  (50 ≤ length resume_text)%nat →
  generate_content w (Analyzer.analysis_prompt resume_text) = Ok reply →
  (∀ d, Json.loads (Analyzer.json_candidate reply) = Ok (VDict d) →
        ∃ d', (Analyzer.analyze_resume w resume_text).2 = VDict d'
              ∧ d' !! u "raw_analysis" = d !! u "raw_analysis")
  ∧ (∀ d, is_ok (Analyzer.strict_parse reply) = false →
          Analyzer.parse_gemini_response reply = Ok d →
          (Analyzer.analyze_resume w resume_text).2 = VDict d
          ∧ d !! u "raw_analysis" = Some (VStr reply)).
Proof.
  intros Hkey Hne Hmodel Hlen Hgen.
  rewrite (analyze_resume_after_reply w resume_text api_key reply) by done.
  cbn [snd]. unfold Analyzer.normalize. split.
  - intros d Hloads.
    destruct (strict_parse_object reply d Hloads) as (d' & -> & Hlook).
    exists d'. split; [done|]. rewrite Hlook.
    destruct (d !! u "raw_analysis"); [done|]. vm_compute. reflexivity.
  - intros d Hfail Hfb. destruct (Analyzer.strict_parse reply); [done|].
    rewrite Hfb. cbn. split; [done|]. by apply fallback_result.
Qed.

(** C8, witness: the theorem at [raw_key_reply]. *)
Lemma raw_analysis_presence_witness :
  (∀ d, Json.loads (Analyzer.json_candidate raw_key_reply) = Ok (VDict d) →
        ∃ d', (Analyzer.analyze_resume (world_answering raw_key_reply) long_text).2 = VDict d'
              ∧ d' !! u "raw_analysis" = d !! u "raw_analysis")
  ∧ (∀ d, is_ok (Analyzer.strict_parse raw_key_reply) = false →
          Analyzer.parse_gemini_response raw_key_reply = Ok d →
          (Analyzer.analyze_resume (world_answering raw_key_reply) long_text).2 = VDict d
          ∧ d !! u "raw_analysis" = Some (VStr raw_key_reply)).
Proof.
  apply (raw_analysis_presence (world_answering raw_key_reply) long_text
           (u "test-key") raw_key_reply).
  - reflexivity.
  - discriminate.
  - reflexivity.
  - vm_compute. lia.
  - reflexivity.
Defined.

(** *** The match flow: the validator *)

Lemma dom_of_lookups (m : gmap pystr value) (keys : list pystr) :
  (∀ k, is_Some (m !! k) ↔ k ∈ keys) → dom m = list_to_set keys.
Proof.
  intros H. apply set_eq. intros k.
  by rewrite elem_of_dom, elem_of_list_to_set.
Qed.

Lemma lookups_of_dom (m : gmap pystr value) (keys : list pystr) k :
  dom m = list_to_set keys → k ∉ keys → m !! k = None.
Proof.
  intros Hdom Hk. apply not_elem_of_dom. rewrite Hdom.
  by rewrite elem_of_list_to_set.
Qed.

Lemma clamp_in_range z : in_range (JdMatcher.clamp z) = true.
Proof. unfold in_range, JdMatcher.clamp. apply andb_true_iff. lia. Qed.

Lemma clamp_fixed z : in_range z = true → JdMatcher.clamp z = z.
Proof. unfold in_range, JdMatcher.clamp. rewrite andb_true_iff. lia. Qed.

Lemma checked_score_in_range v n :
  JdMatcher.checked_score v = Ok (Some n) → in_range n = true.
Proof.
  unfold JdMatcher.checked_score. intros H.
  destruct v as [x|]; [|done]. destruct (is_number x); [|done].
  destruct (py_int x) as [z|e]; [|done]. cbn in H. simplify_eq.
  apply clamp_in_range.
Qed.

Lemma checked_score_of_score v :
  is_score v = true → ∃ z, v = Some (VInt z) ∧ JdMatcher.checked_score v = Ok (Some z).
Proof.
  destruct v as [[]|]; try done. cbn. intros Hz. eexists. split; [done|].
  by rewrite (clamp_fixed _ Hz).
Qed.

Lemma zero_scores_lookup c :
  c ∈ JdMatcher.categories → JdMatcher.zero_scores !! c = Some (VInt 0).
Proof. intros H. key_cases H; vm_compute; reflexivity. Qed.

Lemma zero_scores_dom : dom JdMatcher.zero_scores = list_to_set JdMatcher.categories.
Proof. vm_compute. reflexivity. Qed.

(** What the loop over the categories leaves under each key. *)
Lemma validate_categories_lookup source cats : ∀ scores out,
  JdMatcher.validate_categories source cats scores = Ok out →
  ∀ c, out !! c =
       if bool_decide (c ∈ cats) then
         match JdMatcher.checked_score (source !! c) with
         | Ok (Some n) => Some (VInt n)
         | _ => scores !! c
         end
       else scores !! c.
Proof.
  induction cats as [|a cats IH]; intros scores out H c.
  - cbn in H. simplify_eq. done.
  - cbn [JdMatcher.validate_categories] in H.
    destruct (JdMatcher.checked_score (source !! a)) as [z|e] eqn:Ha; [|done].
    apply IH with (c := c) in H. rewrite H. clear H.
    destruct (decide (c = a)) as [->|Hca].
    + rewrite (bool_decide_eq_true_2 (a ∈ a :: cats)) by apply list_elem_of_here.
      rewrite Ha. destruct z as [n|].
      * rewrite lookup_insert_eq. by case_bool_decide.
      * by case_bool_decide.
    + assert (bool_decide (c ∈ a :: cats) = bool_decide (c ∈ cats)) as ->.
      { apply bool_decide_ext. rewrite elem_of_cons.
        split; [by intros [?|?] | by right]. }
      destruct z as [n|]; [|done]. by rewrite lookup_insert_ne.
Qed.

(** The loop does not raise when every supplied value is an integer in
    range, a non-number or missing. *)
Lemma validate_categories_ok source cats : ∀ scores,
  (∀ c, c ∈ cats → is_ok (JdMatcher.checked_score (source !! c)) = true) →
  ∃ out, JdMatcher.validate_categories source cats scores = Ok out.
Proof.
  induction cats as [|a cats IH]; intros scores Hok; [by eexists|].
  cbn [JdMatcher.validate_categories].
  pose proof (Hok a (list_elem_of_here _ _)) as Ha.
  destruct (JdMatcher.checked_score (source !! a)) as [z|e]; [|done].
  apply IH. intros c Hc. apply Hok. by apply list_elem_of_further.
Qed.

(** The category scores after validation: the five keys, each in range. *)
Lemma validate_categories_shape source out :
  JdMatcher.validate_categories source JdMatcher.categories JdMatcher.zero_scores = Ok out →
  dom out = list_to_set JdMatcher.categories
  ∧ ∀ c, c ∈ JdMatcher.categories → is_score (out !! c) = true.
Proof.
  intros H. pose proof (validate_categories_lookup _ _ _ _ H) as Hlook.
  assert (∀ c, c ∈ JdMatcher.categories → is_score (out !! c) = true) as Hscore.
  { intros c Hc. rewrite Hlook, bool_decide_eq_true_2 by done.
    destruct (JdMatcher.checked_score (source !! c)) as [[n|]|e] eqn:Hcs.
    - by apply checked_score_in_range in Hcs.
    - by rewrite zero_scores_lookup.
    - by rewrite zero_scores_lookup. }
  split; [|done]. apply dom_of_lookups. intros k. split.
  - intros Hk. destruct (decide (k ∈ JdMatcher.categories)) as [|Hn]; [done|].
    rewrite Hlook, bool_decide_eq_false_2 in Hk by done.
    apply elem_of_dom in Hk. rewrite zero_scores_dom in Hk.
    by apply elem_of_list_to_set in Hk.
  - intros Hk. specialize (Hscore k Hk). by destruct (out !! k).
Qed.

Lemma validate_list_lookup py_repr d validated field k :
  JdMatcher.validate_list py_repr d validated field !! k =
  if bool_decide (field = k) then
    match d !! field with
    | Some (VList l) =>
        Some (VList (take 20 ((λ x, VStr (JdMatcher.py_str py_repr x)) <$> l)))
    | _ => validated !! k
    end
  else validated !! k.
Proof.
  unfold JdMatcher.validate_list. case_bool_decide as Hk.
  - subst k. destruct (d !! field) as [[]|]; try done. apply lookup_insert_eq.
  - destruct (d !! field) as [[]|]; try done. by apply lookup_insert_ne.
Qed.

(** The result of the validator, key by key. *)
Lemma validate_lookups py_repr d out :
  JdMatcher.validate_result_structure py_repr (VDict d) = Ok out →
  ∃ n scores,
    JdMatcher.checked_score (d !! u "score") = Ok n
    ∧ match d !! u "category_scores" with
      | Some (VDict source) =>
          JdMatcher.validate_categories source JdMatcher.categories JdMatcher.zero_scores
      | _ => Ok JdMatcher.zero_scores
      end = Ok scores
    ∧ out !! u "score" = Some (VInt (default 0%Z n))
    ∧ out !! u "category_scores" = Some (VDict scores)
    ∧ (∀ field, field ∈ JdMatcher.list_fields →
                out !! field = Some (VList (validated_list py_repr (d !! field))))
    ∧ (∀ k, k ∉ match_fields → out !! k = None).
Proof.
  unfold JdMatcher.validate_result_structure. intros H.
  destruct (JdMatcher.checked_score (d !! u "score")) as [n|e] eqn:Hn; [|done].
  unfold mbind, res_bind in H. cbv beta iota in H.
  destruct (match d !! u "category_scores" with
            | Some (VDict source) =>
                JdMatcher.validate_categories source JdMatcher.categories
                  JdMatcher.zero_scores
            | _ => Ok JdMatcher.zero_scores
            end) as [scores|e] eqn:Hs; [|done].
  simplify_eq. exists n, scores. split; [done|]. split; [done|].
  assert (∀ k, (match n with
                | Some m => <[u "score" := VInt m]> JdMatcher.default_structure
                | None => JdMatcher.default_structure
                end) !! k
               = if bool_decide (k = u "score") then Some (VInt (default 0%Z n))
                 else JdMatcher.default_structure !! k) as Hbase.
  { intros k. case_bool_decide as Hk.
    - subst k. destruct n; [apply lookup_insert_eq|]. vm_compute. reflexivity.
    - destruct n; [|done]. by apply lookup_insert_ne. }
  repeat split.
  - rewrite lookup_insert_ne by keys_differ. cbn [foldl JdMatcher.list_fields].
    rewrite !validate_list_lookup, !bool_decide_eq_false_2 by keys_differ.
    by rewrite Hbase, bool_decide_eq_true_2.
  - apply lookup_insert_eq.
  - intros field Hf. rewrite lookup_insert_ne by (key_cases Hf; keys_differ).
    cbn [foldl JdMatcher.list_fields]. rewrite !validate_list_lookup, Hbase.
    unfold validated_list.
    key_cases Hf; resolve_keys.
    + destruct (d !! u "matching_skills") as [[]|]; done.
    + destruct (d !! u "missing_skills") as [[]|]; done.
    + destruct (d !! u "recommendations") as [[]|]; done.
  - intros k Hk. unfold match_fields, JdMatcher.list_fields in Hk.
    rewrite !not_elem_of_cons in Hk. destruct Hk as (?&?&?&?&?&_).
    rewrite lookup_insert_ne by done. cbn [foldl JdMatcher.list_fields].
    rewrite !validate_list_lookup, !bool_decide_eq_false_2 by done.
    rewrite Hbase, bool_decide_eq_false_2 by done.
    apply (lookups_of_dom _ match_fields); [vm_compute; reflexivity|].
    unfold match_fields, JdMatcher.list_fields. rewrite !not_elem_of_cons.
    repeat split; try done. apply not_elem_of_nil.
Qed.

(** The validator returns unless a score cannot be converted. *)
Lemma validate_returns py_repr d n scores :
  JdMatcher.checked_score (d !! u "score") = Ok n →
  match d !! u "category_scores" with
  | Some (VDict source) =>
      JdMatcher.validate_categories source JdMatcher.categories JdMatcher.zero_scores
  | _ => Ok JdMatcher.zero_scores
  end = Ok scores →
  ∃ out, JdMatcher.validate_result_structure py_repr (VDict d) = Ok out.
Proof.
  intros Hn Hs. unfold JdMatcher.validate_result_structure.
  rewrite Hn. unfold mbind, res_bind. cbv beta iota. rewrite Hs. eauto.
Qed.

(** The category scores of a validated result. *)
Lemma validate_category_scores py_repr x out :
  JdMatcher.validate_result_structure py_repr x = Ok out →
  ∃ scores, out !! u "category_scores" = Some (VDict scores)
            ∧ dom scores = list_to_set JdMatcher.categories
            ∧ (∀ c, c ∈ JdMatcher.categories → is_score (scores !! c) = true)
            ∧ (∀ d c, x = VDict d → c ∈ JdMatcher.categories →
                      supplied_category d c = None → scores !! c = Some (VInt 0)).
Proof.
  intros H. destruct x as [| | | | | |d]; try done.
  destruct (validate_lookups _ _ _ H) as (n & scores & _ & Hs & _ & Hcat & _).
  exists scores. split; [done|]. unfold supplied_category.
  assert (scores = JdMatcher.zero_scores →
          dom scores = list_to_set JdMatcher.categories
          ∧ (∀ c, c ∈ JdMatcher.categories → is_score (scores !! c) = true)
          ∧ (∀ d0 c, VDict d = VDict d0 → c ∈ JdMatcher.categories →
                     match d0 !! u "category_scores" with
                     | Some (VDict source) => source !! c
                     | _ => None
                     end = None → scores !! c = Some (VInt 0))) as Hzero.
  { intros ->. split; [apply zero_scores_dom|].
    split; [|by intros; apply zero_scores_lookup].
    intros c Hc. by rewrite zero_scores_lookup. }
  destruct (d !! u "category_scores") as [[| | | | | |source]|] eqn:Hd;
    try (apply Hzero; congruence).
  destruct (validate_categories_shape _ _ Hs) as [Hdom Hrange].
  repeat split; [done..|]. intros d' c Hd' Hc Hnone. simplify_eq.
  rewrite Hd in Hnone.
  rewrite (validate_categories_lookup _ _ _ _ Hs), bool_decide_eq_true_2 by done.
  rewrite Hnone. cbn. by apply zero_scores_lookup.
Qed.

(** C3.  The fenced reply of the specification's example normalises and
    validates to score 100, matching skills [Go], no missing skills, no
    recommendations, and category scores 100 for Technical Skills and 0 for
    the other four. *)
Theorem fenced_example_normalizes py_repr :
  JdMatcher.normalize_and_validate py_repr fenced_reply =
  Ok (dict_of [
    ("score", VInt 100);
    ("matching_skills", strs ["Go"]);
    ("missing_skills", VList []);
    ("recommendations", VList []);
    ("category_scores", VDict (dict_of [
       ("Technical Skills", VInt 100); ("Experience", VInt 0); ("Education", VInt 0);
       ("Soft Skills", VInt 0); ("Industry Knowledge", VInt 0)]))
  ]).
Proof. vm_compute. reflexivity. Qed.

(** C4.  On every path [compare_resume_jd] returns a [category_scores]
    mapping whose keys are exactly the five categories and whose values are
    integers in [0, 100]; and in a validated result a category that the
    model's mapping does not supply has the value 0. *)
Theorem category_scores_always_five py_repr w resume_text jd_text :
  (∃ scores,
     (JdMatcher.compare_resume_jd py_repr w resume_text jd_text).2 !! u "category_scores"
       = Some (VDict scores)
     ∧ dom scores = list_to_set JdMatcher.categories
     ∧ ∀ c, c ∈ JdMatcher.categories → is_score (scores !! c) = true)
  ∧ (∀ d out c,
       JdMatcher.validate_result_structure py_repr (VDict d) = Ok out →
       c ∈ JdMatcher.categories → supplied_category d c = None →
       ∃ scores, out !! u "category_scores" = Some (VDict scores)
                 ∧ scores !! c = Some (VInt 0)).
Proof.
  assert (∀ e, ∃ scores,
            JdMatcher.error_response e !! u "category_scores" = Some (VDict scores)
            ∧ dom scores = list_to_set JdMatcher.categories
            ∧ ∀ c, c ∈ JdMatcher.categories → is_score (scores !! c) = true) as Herr.
  { intros e. exists JdMatcher.zero_scores. split; [vm_compute; reflexivity|].
    split; [apply zero_scores_dom|]. intros c Hc. by rewrite zero_scores_lookup. }
  split.
  - unfold JdMatcher.compare_resume_jd.
    destruct (GEMINI_API_KEY w) as [[|c key]|]; [apply Herr| |apply Herr].
    destruct (length resume_text <? 50)%nat; [apply Herr|].
    destruct (length jd_text <? 50)%nat; [apply Herr|].
    destruct (GenerativeModel w JdMatcher.model_name) as [[]|e]; [|apply Herr].
    cbn [snd].
    destruct (_ ≫= _) as [validated|e] eqn:Hrun; [|apply Herr].
    destruct (generate_content w _) as [reply|e]; [|done].
    unfold mbind, res_bind, JdMatcher.normalize_and_validate in Hrun.
    destruct (JdMatcher.parse_gemini_response reply) as [x|e]; [|done].
    destruct (validate_category_scores _ _ _ Hrun) as (scores & ? & ? & ? & _).
    by exists scores.
  - intros d out c Hv Hc Hnone.
    destruct (validate_category_scores _ _ _ Hv) as (scores & ? & _ & _ & Hzero).
    exists scores. split; [done|]. by apply (Hzero d).
Qed.

(** [int] returns on every integer, boolean and finite float. *)
Lemma py_int_finite v :
  is_number v = true → v ≠ VFloat S754_nan →
  (∀ s, v ≠ VFloat (S754_infinity s)) → ∃ z, py_int v = Ok z.
Proof.
  destruct v as [| | |f| | |]; try done; cbn; eauto.
  destruct f; cbn; eauto; intros _ Hnan Hinf; [by destruct (Hinf s)|done].
Qed.

(** Whenever the validator returns, the score is the clamped integer value
    of a numeric source value, and 0 for a source value that is absent or
    not a number. *)
Lemma score_is_clamped py_repr d out :
  JdMatcher.validate_result_structure py_repr (VDict d) = Ok out →
  out !! u "score" =
  Some (VInt match d !! u "score" with
             | Some v =>
                 if is_number v
                 then match py_int v with
                      | Ok z => Z.min 100 (Z.max 0 z)
                      | Raise _ => 0
                      end
                 else 0
             | None => 0
             end).
Proof.
  intros H.
  destruct (validate_lookups _ _ _ H) as (n & scores & Hn & _ & -> & _).
  unfold JdMatcher.checked_score in Hn.
  destruct (d !! u "score") as [v|]; [|by simplify_eq].
  destruct (is_number v); [|by simplify_eq].
  destruct (py_int v) as [z|e]; [|done]. cbn in Hn. by simplify_eq.
Qed.

Lemma checked_score_finite v :
  non_finite v = false → is_ok (JdMatcher.checked_score v) = true.
Proof.
  destruct v as [[| | |f| | |]|]; try done. by destruct f.
Qed.

(** The validator returns on every mapping in which neither the score nor
    a category score is NaN or an infinity. *)
Lemma validate_returns_when_finite py_repr d :
  non_finite (d !! u "score") = false →
  (∀ source c, d !! u "category_scores" = Some (VDict source) →
               c ∈ JdMatcher.categories → non_finite (source !! c) = false) →
  ∃ out, JdMatcher.validate_result_structure py_repr (VDict d) = Ok out.
Proof.
  intros Hscore Hcats.
  pose proof (checked_score_finite _ Hscore) as Hn.
  destruct (JdMatcher.checked_score (d !! u "score")) as [n|e] eqn:Hcs; [|done].
  destruct (d !! u "category_scores") as [[| | | | | |source]|] eqn:Hd;
    try (eapply validate_returns; [exact Hcs|by rewrite Hd]).
  destruct (validate_categories_ok source JdMatcher.categories JdMatcher.zero_scores)
    as [scores Hs].
  { intros c Hc. apply checked_score_finite. by apply (Hcats source). }
  eapply validate_returns; [exact Hcs|]. rewrite Hd. exact Hs.
Qed.

(** C5 (the code departs from the claim).  [json.loads] reads the literal
    [NaN] as a float, and [validate_result_structure] raises [ValueError]
    on a mapping whose score is that float. *)
Theorem validate_raises_on_nan py_repr :
  Json.loads (uq "{~score~: NaN}") = Ok (VDict {[ u "score" := VFloat S754_nan ]})
  ∧ JdMatcher.validate_result_structure py_repr (VDict {[ u "score" := VFloat S754_nan ]})
    = Raise (ValueError (u "cannot convert float NaN to integer")).
Proof. split; vm_compute; reflexivity. Qed.

(** C7 (the code departs from the claim).  The JSON number [1e999] is read
    as the float infinity; the validator does not clamp it to 100 but raises
    [OverflowError], and [compare_resume_jd] then answers with score 0 and
    the exception text as [error]. *)
Theorem infinite_score_not_clamped py_repr :
  Json.loads (uq "{~score~: 1e999}")
    = Ok (VDict {[ u "score" := VFloat (S754_infinity false) ]})
  ∧ JdMatcher.validate_result_structure py_repr
      (VDict {[ u "score" := VFloat (S754_infinity false) ]})
    = Raise (OverflowError (u "cannot convert float infinity to integer"))
  ∧ (JdMatcher.compare_resume_jd py_repr (world_answering (uq "{~score~: 1e999}"))
       long_text long_text).2
    = JdMatcher.error_response (VStr (u "cannot convert float infinity to integer")).
Proof. repeat split; vm_compute; reflexivity. Qed.

(** *** The match flow: conformant objects *)

Lemma strip_braced reply :
  startswith (u "{") reply = true → endswith (u "}") reply = true →
  strip reply = reply.
Proof.
  unfold endswith, strip, rstrip_by, lstrip_by.
  change (u "{") with [123%N]. change (rev (u "}")) with [125%N]. intros Hs He.
  destruct reply as [|c reply]; [done|].
  cbn [startswith] in Hs. rewrite andb_true_r in Hs. apply N.eqb_eq in Hs. subst c.
  cbn [drop_while]. change (is_space 123%N) with false. cbv iota.
  destruct (rev (123%N :: reply)) as [|c r] eqn:Hrev; [done|].
  cbn [startswith] in He. rewrite andb_true_r in He. apply N.eqb_eq in He. subst c.
  cbn [drop_while]. change (is_space 125%N) with false. cbv iota.
  by rewrite <- Hrev, rev_involutive.
Qed.

Lemma bare_candidate_braced reply :
  startswith (u "{") reply = true → endswith (u "}") reply = true →
  JdMatcher.bare_candidate reply = reply.
Proof.
  intros Hs He. unfold JdMatcher.bare_candidate.
  rewrite (strip_braced reply Hs He), Hs, He. reflexivity.
Qed.

(** A reply that is exactly a JSON object, and in which the fence pattern
    finds nothing that parses, is returned as the object it denotes. *)
Lemma parse_plain_object reply d :
  startswith (u "{") reply = true → endswith (u "}") reply = true →
  Json.loads reply = Ok (VDict d) → no_parsable_fence reply = true →
  JdMatcher.parse_gemini_response reply = Ok (VDict d).
Proof.
  intros Hs He Hloads Hfence.
  assert (JdMatcher.parse_bare reply = Ok (VDict d)) as Hbare.
  { unfold JdMatcher.parse_bare, JdMatcher.loads_or.
    by rewrite (bare_candidate_braced reply Hs He), Hloads. }
  unfold JdMatcher.parse_gemini_response, no_parsable_fence in *.
  destruct (Re.search JdMatcher.fence reply) as [m|]; [|done].
  unfold JdMatcher.loads_or.
  by destruct (Json.loads (default [] (Re.group 1 m))) as [v|[]].
Qed.

Lemma str_list_fixed py_repr l :
  forallb is_str l = true → (λ x, VStr (JdMatcher.py_str py_repr x)) <$> l = l.
Proof.
  induction l as [|x l IH]; [done|]. cbn. rewrite andb_true_iff.
  intros [Hx Hl]. rewrite (IH Hl). by destruct x.
Qed.

Lemma validated_list_fixed py_repr v :
  is_short_str_list v = true → ∃ l, v = Some (VList l) ∧ validated_list py_repr v = l.
Proof.
  destruct v as [[| | | | |l|]|]; try done. cbn. rewrite andb_true_iff.
  intros [Hstr Hlen]. apply Nat.leb_le in Hlen. exists l. split; [done|].
  rewrite (str_list_fixed _ _ Hstr). by apply take_ge.
Qed.

Lemma validated_list_short py_repr v :
  is_short_str_list (Some (VList (validated_list py_repr v))) = true.
Proof.
  cbn. apply andb_true_iff. split.
  - destruct v as [[| | | | |l|]|]; try done. cbn.
    generalize 20%nat. induction l as [|x l IH]; intros [|n]; cbn; auto.
  - apply Nat.leb_le. destruct v as [[| | | | |l|]|]; cbn; try lia.
    rewrite length_take. lia.
Qed.

Lemma forallb_elem_of {A} (p : A → bool) (l : list A) :
  forallb p l = true ↔ ∀ x, x ∈ l → p x = true.
Proof.
  rewrite forallb_forall. split; intros H x Hx; apply H; by apply list_elem_of_In.
Qed.

(** The validator maps a conformant mapping to itself. *)
Lemma validate_conformant_fixed py_repr d :
  conformant d = true → JdMatcher.validate_result_structure py_repr (VDict d) = Ok d.
Proof.
  unfold conformant. rewrite !andb_true_iff.
  intros [[[Hdom Hscore] Hlists] Hcat]. apply bool_decide_eq_true in Hdom.
  destruct (checked_score_of_score _ Hscore) as (z & Hz & Hcs).
  destruct (d !! u "category_scores") as [[| | | | | |source]|] eqn:Hc; try done.
  apply andb_true_iff in Hcat as [Hsd Hsr]. apply bool_decide_eq_true in Hsd.
  rewrite forallb_elem_of in Hsr. rewrite forallb_elem_of in Hlists.
  destruct (validate_categories_ok source JdMatcher.categories JdMatcher.zero_scores)
    as [scores Hscores].
  { intros c Hc'. destruct (checked_score_of_score _ (Hsr c Hc')) as (? & _ & ->). done. }
  assert (scores = source) as ->.
  { apply map_eq. intros k. rewrite (validate_categories_lookup _ _ _ _ Hscores).
    case_bool_decide as Hk.
    - destruct (checked_score_of_score _ (Hsr k Hk)) as (n & Hn & ->). done.
    - rewrite (lookups_of_dom _ _ _ zero_scores_dom Hk).
      by rewrite (lookups_of_dom _ _ _ Hsd Hk). }
  destruct (validate_returns py_repr d (Some z) source) as [out Hout]; [done| |].
  { by rewrite Hc. }
  rewrite Hout. f_equal. apply map_eq. intros k.
  destruct (validate_lookups _ _ _ Hout) as (n & scores & Hn & Hs & Hk1 & Hk2 & Hk3 & Hk4).
  rewrite Hcs in Hn. rewrite Hc, Hscores in Hs. simplify_eq.
  destruct (decide (k ∈ match_fields)) as [Hin|Hnot].
  - unfold match_fields in Hin.
    apply elem_of_cons in Hin as [->|Hin]; [by rewrite Hk1, Hz|].
    apply elem_of_cons in Hin as [->|Hin]; [by rewrite Hk2, Hc|].
    rewrite (Hk3 k Hin).
    destruct (validated_list_fixed py_repr _ (Hlists k Hin)) as (l & Hl & ->). done.
  - by rewrite (Hk4 k Hnot), (lookups_of_dom _ _ _ Hdom Hnot).
Qed.

(** Whatever the validator returns is conformant. *)
Lemma validate_output_conformant py_repr x out :
  JdMatcher.validate_result_structure py_repr x = Ok out → conformant out = true.
Proof.
  intros H. destruct x as [| | | | | |d]; try done.
  destruct (validate_lookups _ _ _ H) as (n & scores & Hn & Hs & Hk1 & Hk2 & Hk3 & Hk4).
  unfold conformant. rewrite !andb_true_iff. repeat split.
  - apply bool_decide_eq_true, dom_of_lookups. intros k. split.
    + intros Hk. destruct (decide (k ∈ match_fields)) as [|Hnot]; [done|].
      rewrite (Hk4 k Hnot) in Hk. by destruct Hk.
    + intros Hin. unfold match_fields in Hin.
      apply elem_of_cons in Hin as [->|Hin]; [by rewrite Hk1|].
      apply elem_of_cons in Hin as [->|Hin]; [by rewrite Hk2|].
      by rewrite (Hk3 k Hin).
  - rewrite Hk1. destruct n as [m|]; [|done]. by apply checked_score_in_range in Hn.
  - apply forallb_elem_of. intros field Hf. rewrite (Hk3 field Hf).
    apply validated_list_short.
  - rewrite Hk2.
    assert (dom scores = list_to_set JdMatcher.categories
            ∧ ∀ c, c ∈ JdMatcher.categories → is_score (scores !! c) = true)
      as [Hdom Hrange].
    { destruct (d !! u "category_scores") as [[| | | | | |source]|];
        try (simplify_eq; split;
             [apply zero_scores_dom|by intros c Hc; rewrite zero_scores_lookup]).
      by apply (validate_categories_shape source). }
    apply andb_true_iff. split; [by apply bool_decide_eq_true|].
    by apply forallb_elem_of.
Qed.

(** C9, counterexample.  [quoting_reply] is exactly a JSON object, and the
    object is conformant, yet the normaliser returns the empty object found
    inside the fence that one of its strings quotes. *)
Lemma quoted_fence_is_not_passed_through :
  startswith (u "{") quoting_reply = true
  ∧ endswith (u "}") quoting_reply = true
  ∧ Json.loads quoting_reply = Ok (VDict quoting_object)
  ∧ conformant quoting_object = true
  ∧ JdMatcher.parse_gemini_response quoting_reply = Ok (VDict ∅)
  ∧ JdMatcher.parse_gemini_response quoting_reply ≠ Ok (VDict quoting_object).
Proof.
  repeat split; try (vm_compute; reflexivity).
  vm_compute. discriminate.
Qed.

(** C9, as amended.  A reply that is exactly a JSON object, and in which
    the fence pattern finds nothing that parses as JSON, is normalised to
    that object, and to itself by the whole pipeline when it is conformant;
    the validator maps every conformant mapping to itself; and validating
    twice is validating once. *)
Theorem conformant_pass_through py_repr :
  (∀ reply d,
     startswith (u "{") reply = true → endswith (u "}") reply = true →
     Json.loads reply = Ok (VDict d) → no_parsable_fence reply = true →
     JdMatcher.parse_gemini_response reply = Ok (VDict d)
     ∧ (conformant d = true → JdMatcher.normalize_and_validate py_repr reply = Ok d))
  ∧ (∀ d, conformant d = true →
          JdMatcher.validate_result_structure py_repr (VDict d) = Ok d)
  ∧ (∀ x out, JdMatcher.validate_result_structure py_repr x = Ok out →
              JdMatcher.validate_result_structure py_repr (VDict out) = Ok out).
Proof.
  repeat split.
  - by apply parse_plain_object.
  - intros Hconf. unfold JdMatcher.normalize_and_validate.
    rewrite (parse_plain_object reply d) by done.
    by apply validate_conformant_fixed.
  - apply validate_conformant_fixed.
  - intros x out H. by eapply validate_conformant_fixed, validate_output_conformant.
Qed.

(** C9, witness: the theorem at [plain_reply]. *)
Lemma conformant_pass_through_witness :
  JdMatcher.parse_gemini_response plain_reply = Ok (VDict plain_object)
  ∧ JdMatcher.normalize_and_validate no_repr plain_reply = Ok plain_object
  ∧ JdMatcher.validate_result_structure no_repr (VDict plain_object) = Ok plain_object.
Proof.
  destruct (conformant_pass_through no_repr) as (Hparse & Hfixed & _).
  destruct (Hparse plain_reply plain_object) as [H1 H2];
    [vm_compute; reflexivity..|].
  split; [exact H1|]. split.
  - apply H2. vm_compute. reflexivity.
  - apply Hfixed. vm_compute. reflexivity.
Defined.

(** *** Short inputs *)

(** C6, counterexample.  With the credential configured and a text of five
    characters, [analyze_resume] reports the failure to create the model,
    not the too-short message, when the model cannot be created: the model
    is created before the length is checked. *)
Lemma short_text_without_model :
  (length (u "short") < 50)%nat
  ∧ (Analyzer.analyze_resume world_without_model (u "short")).2
    = VDict (Analyzer.model_error_result (ProviderError (u "model unavailable")))
  ∧ Analyzer.model_error_result (ProviderError (u "model unavailable")) !! u "error"
    = Some (VStr (u "Failed to create Gemini model: model unavailable"))
  ∧ (Analyzer.analyze_resume world_without_model (u "short")).2
    ≠ VDict Analyzer.too_short_result.
Proof.
  repeat split; try (vm_compute; reflexivity).
  - vm_compute. lia.
  - vm_compute. discriminate.
Qed.

(** C6, as amended.  With the credential configured and a resume text
    shorter than 50 characters, [analyze_resume] never calls
    [generate_content], and returns the too-short result provided the model
    could be created; [compare_resume_jd] returns the error response with
    the too-short message of the resume, having only configured the client.
    With a resume text long enough and a job description shorter than 50
    characters, [compare_resume_jd] does the same with the message of the
    job description. *)
Theorem short_input_short_circuits py_repr w api_key resume_text jd_text :
  GEMINI_API_KEY w = Some api_key → api_key ≠ [] →
  ((length resume_text < 50)%nat →
     call_count (Analyzer.analyze_resume w resume_text).1 = 0%nat
     ∧ (is_ok (GenerativeModel w Analyzer.model_name) = true →
        (Analyzer.analyze_resume w resume_text).2 = VDict Analyzer.too_short_result)
     ∧ JdMatcher.compare_resume_jd py_repr w resume_text jd_text
       = ([Configure api_key],
          JdMatcher.error_response
            (VStr (u "Resume text is too short or couldn't be properly extracted"))))
  ∧ ((50 ≤ length resume_text)%nat → (length jd_text < 50)%nat →
     JdMatcher.compare_resume_jd py_repr w resume_text jd_text
     = ([Configure api_key],
        JdMatcher.error_response
          (VStr (u "Job description is too short or couldn't be properly extracted")))).
Proof.
  intros Hkey Hne. unfold Analyzer.analyze_resume, JdMatcher.compare_resume_jd.
  rewrite Hkey. destruct api_key as [|c key]; [done|]. split.
  - intros Hshort.
    destruct (Nat.ltb_spec (length resume_text) 50) as [_|?]; [|lia].
    repeat split.
    + by destruct (GenerativeModel w Analyzer.model_name).
    + by destruct (GenerativeModel w Analyzer.model_name).
  - intros Hlong Hshort.
    destruct (Nat.ltb_spec (length resume_text) 50) as [?|_]; [lia|].
    destruct (Nat.ltb_spec (length jd_text) 50) as [_|?]; [|lia].
    reflexivity.
Qed.

(** C6, witness: the theorem at a resume text of five characters. *)
Lemma short_input_short_circuits_witness :
  ((length (u "short") < 50)%nat →
     call_count (Analyzer.analyze_resume (world_answering prose_reply) (u "short")).1 = 0%nat
     ∧ (is_ok (GenerativeModel (world_answering prose_reply) Analyzer.model_name) = true →
        (Analyzer.analyze_resume (world_answering prose_reply) (u "short")).2
        = VDict Analyzer.too_short_result)
     ∧ JdMatcher.compare_resume_jd no_repr (world_answering prose_reply) (u "short") (u "brief")
       = ([Configure (u "test-key")],
          JdMatcher.error_response
            (VStr (u "Resume text is too short or couldn't be properly extracted"))))
  ∧ ((50 ≤ length (u "short"))%nat → (length (u "brief") < 50)%nat →
     JdMatcher.compare_resume_jd no_repr (world_answering prose_reply) (u "short") (u "brief")
     = ([Configure (u "test-key")],
        JdMatcher.error_response
          (VStr (u "Job description is too short or couldn't be properly extracted")))).
Proof.
  apply (short_input_short_circuits no_repr (world_answering prose_reply) (u "test-key")
           (u "short") (u "brief")).
  - reflexivity.
  - discriminate.
Defined.
